(** * AI receptionist: escalation engine, supervisor resolution, timeout sweep

    A shallow embedding of [backend/ai_agent.py], [backend/database_firebase.py],
    [backend/scheduler.py] and [backend/models.py].

    Conventions of the embedding.
    - Python [str] is [string]; a character is an 8-bit code point, so the text
      functions below ([lower], [strip]) follow Python on code points below 256.
    - The Firestore client is an external service.  A collection is the list of
      its documents in [stream()] order; document ids are unique in a
      well-formed collection ([wf_collection]).  [document(id).update] raises
      when the document does not exist.  [document().set] of an id that is not
      there adds a document; ids are random, so where it lands in stream order
      is arbitrary: the model puts it last and no statement depends on its
      position ([adds_one]).
    - [collection.document()] draws a random id on the client: the drawn id is
      an argument ([auto_id]) of every operation that creates a document.
    - [firestore.SERVER_TIMESTAMP] is resolved by the server when the write is
      committed: the commit time is an argument ([ts], microseconds) and the
      field then reads back as a datetime object.
    - The OpenAI call is an argument [llm] of [process_question]: a function from
      the message list to what the [try] block observes.
    - Calls to the store succeed: the handlers that turn a failed store call
      into [False] or an empty list are not reached, except for the update of
      a document that does not exist.
    - [firestore.Increment(1)] is addition on [Z].
    - [print] calls are left out. *)

From Stdlib Require Import ZArith NArith Ascii String Sorted.
From stdpp Require Import gmap strings list fin_maps.

Set Warnings "-clear-no-such-hyp".

Open Scope string_scope.
Open Scope list_scope.

(* ===================================================================== *)
(** ** Python text primitives *)
(* ===================================================================== *)

Module PyStr.

(** [str.isspace] on one code point (Unicode White_Space plus the four
    information separators, restricted to code points below 256). *)
Definition is_space (c : ascii) : bool :=
  let n := N_of_ascii c in
  (((9 <=? n) && (n <=? 13)) || ((28 <=? n) && (n <=? 32))
   || (n =? 133) || (n =? 160))%N.

(** [str.lower] on one code point: A-Z and the Latin-1 capitals. *)
Definition lower_char (c : ascii) : ascii :=
  let n := N_of_ascii c in
  if (((65 <=? n) && (n <=? 90))
      || ((192 <=? n) && (n <=? 222) && negb (n =? 215)))%N
  then ascii_of_N (n + 32) else c.

Fixpoint lower (s : string) : string :=
  match s with
  | EmptyString => EmptyString
  | String c s' => String (lower_char c) (lower s')
  end.

(** [s.startswith(p)] *)
Fixpoint startswith (s p : string) {struct p} : bool :=
  match p, s with
  | EmptyString, _ => true
  | String _ _, EmptyString => false
  | String a p', String b s' => if Ascii.eqb a b then startswith s' p' else false
  end.

(** [needle in hay] *)
Fixpoint contains (needle hay : string) : bool :=
  startswith hay needle
  || match hay with
     | EmptyString => false
     | String _ hay' => contains needle hay'
     end.

Fixpoint lstrip (s : string) : string :=
  match s with
  | EmptyString => EmptyString
  | String c s' => if is_space c then lstrip s' else s
  end.

Fixpoint rstrip (s : string) : string :=
  match s with
  | EmptyString => EmptyString
  | String c s' =>
      match rstrip s' with
      | EmptyString => if is_space c then EmptyString else String c EmptyString
      | r => String c r
      end
  end.

(** [s.strip()] *)
Definition strip (s : string) : string := rstrip (lstrip s).

(** [l[-n:]] for a positive [n]: the last [n] elements, all of [l] when it
    is shorter. *)
Definition last_n {A} (n : nat) (l : list A) : list A :=
  drop (length l - n) l.

(** The last character of [p] exists and is not white space. *)
Fixpoint ends_visible (p : string) : bool :=
  match p with
  | EmptyString => false
  | String c EmptyString => negb (is_space c)
  | String _ p' => ends_visible p'
  end.

End PyStr.

(* ===================================================================== *)
(** ** Data model ([models.py] and the documents written by the store) *)
(* ===================================================================== *)

(** [models.RequestStatus] *)
Inductive RequestStatus := PENDING | RESOLVED | UNRESOLVED.

Global Instance RequestStatus_eq_dec : EqDecision RequestStatus.
Proof. solve_decision. Defined.

(** One entry of [AIAgent.conversation_history[customer_id]]:
    [{"role": ..., "content": ...}]. *)
Inductive Role := system | user | assistant.

Record Message := mkMessage { role : Role; content : string }.

(** The value read back from a time field of a document.  The store of this
    repository only writes [SERVER_TIMESTAMP], read back as [PyDatetime];
    [PyStr] is a document whose field holds text (an ISO date written by
    another client). *)
Inductive PyTime :=
| PyDatetime (t : Z)
| PyStr (s : string).

(** Caller-supplied metadata, [Optional[Dict[str, Any]]]. *)
Definition CallerContext := list (string * string).

(** The [context] dict of a help request. *)
Inductive RequestContext :=
| CtxDict (d : CallerContext)
| CtxSnapshot (conversation_history : list Message) (additional_context : CallerContext)
| CtxError (error : string).

(** A document of the [help_requests] collection ([models.HelpRequest]). *)
Record HelpRequest := mkHelpRequest {
  hr_id : string;
  hr_question : string;
  hr_customer_id : string;
  hr_customer_phone : option string;
  hr_context : RequestContext;
  hr_status : RequestStatus;
  hr_created_at : PyTime;
  hr_resolved_at : option Z;
  hr_supervisor_answer : option string;
  hr_supervisor_id : option string
}.

(** A document of the [knowledge_base] collection ([models.KnowledgeBase]). *)
Record KnowledgeBase := mkKnowledgeBase {
  kb_id : string;
  kb_question : string;
  kb_answer : string;
  kb_source : string;
  kb_tags : list string;
  kb_created_at : Z;
  kb_updated_at : Z;
  kb_usage_count : Z
}.

(** [models.AgentResponse], the dict returned by [process_question]. *)
Record AgentResponse := mkAgentResponse {
  response : string;
  needs_help : bool;
  help_request_id : option string;
  knowledge_used : option string
}.

(* ===================================================================== *)
(** ** Firestore collections *)
(* ===================================================================== *)

Section Collection.
Context {D : Type} (key : D -> string).

(** [collection.document(id).get()] *)
Fixpoint doc_get (i : string) (c : list D) : option D :=
  match c with
  | [] => None
  | d :: c' => if decide (key d = i) then Some d else doc_get i c'
  end.

(** [collection.document(id).update(fields)]: [f] writes the fields.
    [None] is the NotFound exception of a missing document. *)
Fixpoint doc_update (i : string) (f : D -> D) (c : list D) : option (list D) :=
  match c with
  | [] => None
  | d :: c' =>
      if decide (key d = i) then Some (f d :: c')
      else c'' ← doc_update i f c'; Some (d :: c'')
  end.

(** [doc_ref.set(data)] where [key data] is the id of [doc_ref]: replaces
    the document of that id, or adds a new one. *)
Fixpoint doc_set (data : D) (c : list D) : list D :=
  match c with
  | [] => [data]
  | d :: c' => if decide (key d = key data) then data :: c' else d :: doc_set data c'
  end.

Definition ids (c : list D) : list string := key <$> c.

(** Document ids are unique within a collection. *)
Definition wf_collection (c : list D) : Prop := NoDup (ids c).

End Collection.

(* ===================================================================== *)
(** ** [database_firebase.FirebaseDatabase] *)
(* ===================================================================== *)

Record FirebaseDatabase := mkDb {
  requests_collection : list HelpRequest;
  knowledge_collection : list KnowledgeBase
}.

Module Firestore.

(** Firestore's order on the values of one field: every timestamp sorts
    before every text value; timestamps by time, text by code points. *)
Definition value_compare (a b : PyTime) : comparison :=
  match a, b with
  | PyDatetime x, PyDatetime y => (x ?= y)%Z
  | PyDatetime _, PyStr _ => Lt
  | PyStr _, PyDatetime _ => Gt
  | PyStr x, PyStr y => String.compare x y
  end.

(** [a] is streamed no later than [b] by
    [order_by('created_at', direction=DESCENDING)]; equal values are
    ordered by document id, in the same direction. *)
Definition created_desc (a b : HelpRequest) : bool :=
  match value_compare (hr_created_at a) (hr_created_at b) with
  | Gt => true
  | Lt => false
  | Eq => String.leb (hr_id b) (hr_id a)
  end.

Fixpoint insert_desc (r : HelpRequest) (l : list HelpRequest) : list HelpRequest :=
  match l with
  | [] => [r]
  | x :: l' => if created_desc r x then r :: l else x :: insert_desc r l'
  end.

Definition order_by_created_at_desc (l : list HelpRequest) : list HelpRequest :=
  foldr insert_desc [] l.

End Firestore.

(** [context or {}] *)
Definition context_or_empty (context : option RequestContext) : RequestContext :=
  match context with
  | None => CtxDict []
  | Some c => c
  end.

(** The document [request_data] built by [create_help_request]. *)
Definition request_data (auto_id : string) (ts : Z)
    (question customer_id : string) (customer_phone : option string)
    (context : option RequestContext) : HelpRequest :=
  {| hr_id := auto_id;
     hr_question := question;
     hr_customer_id := customer_id;
     hr_customer_phone := customer_phone;
     hr_context := context_or_empty context;
     hr_status := PENDING;
     hr_created_at := PyDatetime ts;
     hr_resolved_at := None;
     hr_supervisor_answer := None;
     hr_supervisor_id := None |}.

Definition create_help_request (auto_id : string) (ts : Z)
    (question customer_id : string) (customer_phone : option string)
    (context : option RequestContext) (db : FirebaseDatabase)
  : string * FirebaseDatabase :=
  (auto_id,
   {| requests_collection :=
        doc_set hr_id
          (request_data auto_id ts question customer_id customer_phone context)
          (requests_collection db);
      knowledge_collection := knowledge_collection db |}).

Definition get_help_request (request_id : string) (db : FirebaseDatabase)
  : option HelpRequest :=
  doc_get hr_id request_id (requests_collection db).

Definition get_pending_requests (db : FirebaseDatabase) : list HelpRequest :=
  Firestore.order_by_created_at_desc
    (filter (fun r => hr_status r = PENDING) (requests_collection db)).

(** The fields written by [update_help_request]. *)
Definition set_supervisor_fields (supervisor_answer supervisor_id : string)
    (status : RequestStatus) (ts : Z) (r : HelpRequest) : HelpRequest :=
  {| hr_id := hr_id r;
     hr_question := hr_question r;
     hr_customer_id := hr_customer_id r;
     hr_customer_phone := hr_customer_phone r;
     hr_context := hr_context r;
     hr_status := status;
     hr_created_at := hr_created_at r;
     hr_resolved_at := Some ts;
     hr_supervisor_answer := Some supervisor_answer;
     hr_supervisor_id := Some supervisor_id |}.

Definition update_help_request (request_id supervisor_answer supervisor_id : string)
    (status : RequestStatus) (ts : Z) (db : FirebaseDatabase)
  : bool * FirebaseDatabase :=
  match doc_update hr_id request_id
          (set_supervisor_fields supervisor_answer supervisor_id status ts)
          (requests_collection db) with
  | Some c => (true, {| requests_collection := c;
                        knowledge_collection := knowledge_collection db |})
  | None => (false, db)
  end.

(** The fields written by [mark_request_unresolved]. *)
Definition set_unresolved (ts : Z) (r : HelpRequest) : HelpRequest :=
  {| hr_id := hr_id r;
     hr_question := hr_question r;
     hr_customer_id := hr_customer_id r;
     hr_customer_phone := hr_customer_phone r;
     hr_context := hr_context r;
     hr_status := UNRESOLVED;
     hr_created_at := hr_created_at r;
     hr_resolved_at := Some ts;
     hr_supervisor_answer := hr_supervisor_answer r;
     hr_supervisor_id := hr_supervisor_id r |}.

Definition mark_request_unresolved (request_id : string) (ts : Z)
    (db : FirebaseDatabase) : bool * FirebaseDatabase :=
  match doc_update hr_id request_id (set_unresolved ts) (requests_collection db) with
  | Some c => (true, {| requests_collection := c;
                        knowledge_collection := knowledge_collection db |})
  | None => (false, db)
  end.

(** The document [knowledge_data] built by [add_knowledge]. *)
Definition knowledge_data (auto_id : string) (ts : Z) (question answer source : string)
    (tags : option (list string)) : KnowledgeBase :=
  {| kb_id := auto_id;
     kb_question := question;
     kb_answer := answer;
     kb_source := source;
     kb_tags := default [] tags;
     kb_created_at := ts;
     kb_updated_at := ts;
     kb_usage_count := 0 |}.

Definition add_knowledge (auto_id : string) (ts : Z) (question answer source : string)
    (tags : option (list string)) (db : FirebaseDatabase)
  : string * FirebaseDatabase :=
  (auto_id,
   {| requests_collection := requests_collection db;
      knowledge_collection :=
        doc_set kb_id (knowledge_data auto_id ts question answer source tags)
          (knowledge_collection db) |}).

(** The test of the loop of [search_knowledge]. *)
Definition matches (query : string) (data : KnowledgeBase) : bool :=
  let query_lower := PyStr.lower query in
  PyStr.contains query_lower (PyStr.lower (kb_question data))
  || PyStr.contains query_lower (PyStr.lower (kb_answer data)).

Definition search_knowledge (query : string) (db : FirebaseDatabase)
  : list KnowledgeBase :=
  filter (fun data => matches query data = true) (knowledge_collection db).

(** [firestore.Increment(1)] on [usage_count]. *)
Definition incr_usage (k : KnowledgeBase) : KnowledgeBase :=
  {| kb_id := kb_id k;
     kb_question := kb_question k;
     kb_answer := kb_answer k;
     kb_source := kb_source k;
     kb_tags := kb_tags k;
     kb_created_at := kb_created_at k;
     kb_updated_at := kb_updated_at k;
     kb_usage_count := (kb_usage_count k + 1)%Z |}.

Definition increment_knowledge_usage (knowledge_id : string) (db : FirebaseDatabase)
  : bool * FirebaseDatabase :=
  match doc_update kb_id knowledge_id incr_usage (knowledge_collection db) with
  | Some c => (true, {| requests_collection := requests_collection db;
                        knowledge_collection := c |})
  | None => (false, db)
  end.

(* ===================================================================== *)
(** ** [ai_agent.AIAgent] *)
(* ===================================================================== *)

(** What the [try] block of [process_question] observes of the OpenAI call:
    the text of the first choice, or an exception [e] with [str(e)]. *)
Inductive Completion :=
| Reply (content : string)
| Failure (description : string).

(** [system_prompt] is [SALON_KNOWLEDGE], set by the constructor. *)
Record AIAgent := mkAgent {
  system_prompt : string;
  conversation_history : gmap string (list Message)
}.

Definition nl : string := String "010"%char EmptyString.
Definition dq : string := String "034"%char EmptyString.
Definition indent : string := "            ".

(** The second system message of [process_question]. *)
Definition ESCALATION_RULES : string :=
  nl +:+ indent +:+ "ESCALATION RULES:" +:+
  nl +:+ indent +:+ "- If the question is about something not covered in your knowledge base, respond with: "
     +:+ dq +:+ "Let me check with my supervisor and get back to you." +:+ dq +:+
  nl +:+ indent +:+ "- If the customer asks about specific availability, pricing not listed, or special requests, escalate." +:+
  nl +:+ indent +:+ "- If you're uncertain about any information, escalate rather than guessing." +:+
  nl +:+ indent +:+ "- When escalating, be polite and assure the customer you'll get back to them soon." +:+
  nl +:+ indent +:+
  nl +:+ indent +:+ "To escalate, include [ESCALATE] at the start of your response." +:+
  nl +:+ indent.

Definition ESCALATE : string := "[ESCALATE]".

Definition escalation_message : string :=
  "Let me check with my supervisor and get back to you shortly. We'll call you back with the answer!".

Definition trouble_message : string :=
  "I'm having trouble processing your request. Let me get a supervisor to help you.".

(** [self.conversation_history[customer_id]] *)
Definition turns_of (h : gmap string (list Message)) (customer_id : string)
  : list Message :=
  default [] (h !! customer_id).

(** [self.conversation_history[customer_id].append(m1)] then [.append(m2)] *)
Definition append_turns (customer_id : string) (ms : list Message)
    (h : gmap string (list Message)) : gmap string (list Message) :=
  <[customer_id := turns_of h customer_id ++ ms]> h.

(** The first statement of [process_question]:
    [if customer_id not in h: h[customer_id] = []]. *)
Definition init_history (customer_id : string) (h : gmap string (list Message))
  : gmap string (list Message) :=
  match h !! customer_id with
  | None => <[customer_id := []]> h
  | Some _ => h
  end.

(** The messages sent to the model on a knowledge miss. *)
Definition build_messages (self : AIAgent) (customer_id question : string)
  : list Message :=
  [ mkMessage system (system_prompt self);
    mkMessage system ESCALATION_RULES ]
  ++ PyStr.last_n 5 (turns_of (conversation_history self) customer_id)
  ++ [ mkMessage user question ].

Definition with_history (self : AIAgent) (h : gmap string (list Message)) : AIAgent :=
  {| system_prompt := system_prompt self; conversation_history := h |}.

(** [AIAgent.process_question].  [auto_id] and [ts] are the id and the commit
    time of the help request, when one is created.  In the escalation branch
    the reply with the marker removed is computed and never read: it is not
    part of the result. *)
Definition process_question (llm : list Message -> Completion)
    (auto_id : string) (ts : Z)
    (question customer_id : string) (customer_phone : option string)
    (context : option CallerContext)
    (self : AIAgent) (db : FirebaseDatabase)
  : AgentResponse * AIAgent * FirebaseDatabase :=
  (* Initialize conversation history for new customer *)
  let self := with_history self (init_history customer_id (conversation_history self)) in
  (* First, check if we have learned knowledge about this question *)
  match search_knowledge question db with
  | k :: _ =>
      let '(_, db) := increment_knowledge_usage (kb_id k) db in
      ({| response := kb_answer k;
          needs_help := false;
          help_request_id := None;
          knowledge_used := Some (kb_id k) |}, self, db)
  | [] =>
      let messages := build_messages self customer_id question in
      match llm messages with
      | Reply text =>
          let ai_response := PyStr.strip text in
          if PyStr.startswith ai_response ESCALATE then
            let '(request_id, db) :=
              create_help_request auto_id ts question customer_id customer_phone
                (Some (CtxSnapshot
                         (PyStr.last_n 3 (turns_of (conversation_history self) customer_id))
                         (default [] context)))
                db in
            let h :=
              append_turns customer_id
                [ mkMessage user question; mkMessage assistant escalation_message ]
                (conversation_history self) in
            ({| response := escalation_message;
                needs_help := true;
                help_request_id := Some request_id;
                knowledge_used := None |}, with_history self h, db)
          else
            let h :=
              append_turns customer_id
                [ mkMessage user question; mkMessage assistant ai_response ]
                (conversation_history self) in
            ({| response := ai_response;
                needs_help := false;
                help_request_id := None;
                knowledge_used := None |}, with_history self h, db)
      | Failure e =>
          (* Fallback to escalation on error *)
          let '(request_id, db) :=
            create_help_request auto_id ts question customer_id customer_phone
              (Some (CtxError e)) db in
          ({| response := trouble_message;
              needs_help := true;
              help_request_id := Some request_id;
              knowledge_used := None |}, self, db)
      end
  end.

(** [AIAgent.follow_up_with_customer] *)
Definition follow_up_with_customer (customer_id : string)
    (customer_phone : option string) (question answer : string)
    (self : AIAgent) : AIAgent :=
  match conversation_history self !! customer_id with
  | Some _ =>
      with_history self
        (append_turns customer_id
           [ mkMessage assistant
               ("Following up on your question: " +:+ question
                +:+ ". Here's the answer: " +:+ answer) ]
           (conversation_history self))
  | None => self
  end.

(** [AIAgent.handle_supervisor_response].  [auto_id] is the id drawn for the
    knowledge entry, [ts] the commit time of the two writes. *)
Definition handle_supervisor_response (auto_id : string) (ts : Z)
    (request_id supervisor_answer supervisor_id : string)
    (self : AIAgent) (db : FirebaseDatabase)
  : bool * AIAgent * FirebaseDatabase :=
  (* Get the original request *)
  match get_help_request request_id db with
  | None => (false, self, db)
  | Some request =>
      (* Update the help request *)
      let '(_, db) :=
        update_help_request request_id supervisor_answer supervisor_id RESOLVED ts db in
      (* Add to knowledge base *)
      let '(_, db) :=
        add_knowledge auto_id ts (hr_question request) supervisor_answer "supervisor"
          (Some ["learned"; "supervisor_response"]) db in
      (* Simulate follow-up with customer *)
      let self :=
        follow_up_with_customer (hr_customer_id request) (hr_customer_phone request)
          (hr_question request) supervisor_answer self in
      (true, self, db)
  end.

(** [AIAgent.clear_conversation_history] *)
Definition clear_conversation_history (customer_id : string) (self : AIAgent)
  : AIAgent :=
  with_history self (delete customer_id (conversation_history self)).

(* ===================================================================== *)
(** ** [scheduler.RequestScheduler] *)
(* ===================================================================== *)

Record RequestScheduler := mkScheduler {
  timeout_days : Z;
  is_running : bool
}.

(** [timedelta(days=d)] in microseconds. *)
Definition timedelta_days (d : Z) : Z := (d * 86400000000)%Z.

Section Scheduler.
(** The ISO-8601 parser of the Python library on text; [None] is its
    ValueError. *)
Variable parse_iso : string -> option Z.

(** [datetime.fromisoformat(v)]: a TypeError ([None]) when [v] is not text,
    in particular when it is a datetime object. *)
Definition fromisoformat (v : PyTime) : option Z :=
  match v with
  | PyStr s => parse_iso s
  | PyDatetime _ => None
  end.

(** The [for] loop of [check_old_requests]; an exception leaves the loop
    and is swallowed by the handler around it, the updates made before it
    stay. *)
Fixpoint check_loop (timeout_threshold ts : Z)
    (pending_requests : list HelpRequest) (db : FirebaseDatabase)
  : FirebaseDatabase :=
  match pending_requests with
  | [] => db
  | request :: rest =>
      match fromisoformat (hr_created_at request) with
      | None => db
      | Some created_at =>
          let db :=
            if (created_at <? timeout_threshold)%Z
            then (mark_request_unresolved (hr_id request) ts db).2
            else db in
          check_loop timeout_threshold ts rest db
      end
  end.

(** [RequestScheduler.check_old_requests] at local time [now]; [ts] is the
    commit time of the updates of this tick. *)
Definition check_old_requests (self : RequestScheduler) (now ts : Z)
    (db : FirebaseDatabase) : FirebaseDatabase :=
  let pending_requests := get_pending_requests db in
  let timeout_threshold := (now - timedelta_days (timeout_days self))%Z in
  check_loop timeout_threshold ts pending_requests db.


End Scheduler.

(** The global scheduler instance, [RequestScheduler(timeout_days=2)]. *)
Definition scheduler : RequestScheduler :=
  {| timeout_days := 2; is_running := false |}.

(* ===================================================================== *)
(** ** The other operations of [database_firebase.FirebaseDatabase] *)
(* ===================================================================== *)

Module FirestoreQuery.

(** [a] is streamed no later than [b] by
    [knowledge_collection.order_by('created_at', direction=DESCENDING)];
    equal times are ordered by document id, in the same direction. *)
Definition knowledge_created_desc (a b : KnowledgeBase) : bool :=
  match (kb_created_at a ?= kb_created_at b)%Z with
  | Gt => true
  | Lt => false
  | Eq => String.leb (kb_id b) (kb_id a)
  end.

Fixpoint insert_knowledge_desc (k : KnowledgeBase) (l : list KnowledgeBase)
  : list KnowledgeBase :=
  match l with
  | [] => [k]
  | x :: l' => if knowledge_created_desc k x then k :: l else x :: insert_knowledge_desc k l'
  end.

Definition order_knowledge_by_created_at_desc (l : list KnowledgeBase)
  : list KnowledgeBase :=
  foldr insert_knowledge_desc [] l.

(** [query.limit(n).stream()] inside the [try] of its caller: the first [n]
    documents; nothing for [n = 0]; a negative [n] is refused by the server
    and the caller's handler returns the empty list. *)
Definition limit {D} (n : Z) (l : list D) : list D := take (Z.to_nat n) l.

End FirestoreQuery.

Definition get_all_requests (limit : Z) (db : FirebaseDatabase) : list HelpRequest :=
  FirestoreQuery.limit limit
    (Firestore.order_by_created_at_desc (requests_collection db)).

Definition get_all_knowledge (limit : Z) (db : FirebaseDatabase) : list KnowledgeBase :=
  FirestoreQuery.limit limit
    (FirestoreQuery.order_knowledge_by_created_at_desc (knowledge_collection db)).

(** The fields written by [update_knowledge]. *)
Definition set_answer (answer : string) (ts : Z) (k : KnowledgeBase) : KnowledgeBase :=
  {| kb_id := kb_id k;
     kb_question := kb_question k;
     kb_answer := answer;
     kb_source := kb_source k;
     kb_tags := kb_tags k;
     kb_created_at := kb_created_at k;
     kb_updated_at := ts;
     kb_usage_count := kb_usage_count k |}.

Definition update_knowledge (knowledge_id answer : string) (ts : Z)
    (db : FirebaseDatabase) : bool * FirebaseDatabase :=
  match doc_update kb_id knowledge_id (set_answer answer ts) (knowledge_collection db) with
  | Some c => (true, {| requests_collection := requests_collection db;
                        knowledge_collection := c |})
  | None => (false, db)
  end.

(** The literal [sample_knowledge] of [_add_sample_knowledge]: question,
    answer, tags, source. *)
Definition sample_knowledge : list (string * string * list string * string) :=
  [ ("What are your hours?",
     "We're open Monday-Saturday 9 AM - 8 PM, and Sunday 10 AM - 6 PM.",
     ["hours"; "schedule"], "initial");
    ("How much is a haircut?",
     "Men's haircut is $25, women's haircut starts at $45.",
     ["pricing"; "haircut"], "initial");
    ("Do you take walk-ins?",
     "Yes! We accept walk-ins, but appointments are recommended to avoid wait times.",
     ["appointments"; "walk-ins"], "initial");
    ("Where are you located?",
     "We're located at 123 Main Street, Downtown. Free parking available in the rear.",
     ["location"; "parking"], "initial") ].

(** The document written for one sample: the sample's four fields, then
    [id], the two timestamps and a usage count of zero. *)
Definition sample_entry (id : string) (ts : Z)
    (sample : string * string * list string * string) : KnowledgeBase :=
  let '(question, answer, tags, source) := sample in
  {| kb_id := id;
     kb_question := question;
     kb_answer := answer;
     kb_source := source;
     kb_tags := tags;
     kb_created_at := ts;
     kb_updated_at := ts;
     kb_usage_count := 0 |}.

(** The loop of [_add_sample_knowledge] from the [i]-th sample on;
    [auto_id i] is the id drawn for the [i]-th document. *)
Fixpoint add_samples (auto_id : nat -> string) (ts : Z) (i : nat)
    (samples : list (string * string * list string * string))
    (c : list KnowledgeBase) : list KnowledgeBase :=
  match samples with
  | [] => c
  | kb :: rest =>
      add_samples auto_id ts (S i) rest
        (doc_set kb_id (sample_entry (auto_id i) ts kb) c)
  end.

(** [FirebaseDatabase._add_sample_knowledge] *)
Definition add_sample_knowledge (auto_id : nat -> string) (ts : Z)
    (db : FirebaseDatabase) : FirebaseDatabase :=
  {| requests_collection := requests_collection db;
     knowledge_collection :=
       add_samples auto_id ts 0 sample_knowledge (knowledge_collection db) |}.

(** [FirebaseDatabase._initialize_sample_data] *)
Definition initialize_sample_data (auto_id : nat -> string) (ts : Z)
    (db : FirebaseDatabase) : FirebaseDatabase :=
  let docs := FirestoreQuery.limit 1 (knowledge_collection db) in
  match docs with
  | [] => add_sample_knowledge auto_id ts db
  | _ :: _ => db
  end.

(* ===================================================================== *)
(** ** [livekit_handler.LiveKitHandler] *)
(* ===================================================================== *)

(** The result of a method that may raise [ValueError]. *)
Inductive Raises (A : Type) :=
| Returns (a : A)
| ValueError (message : string).
Arguments Returns {A} a.
Arguments ValueError {A} message.

Inductive Speaker := speaker_customer | speaker_ai_agent.

Record TranscriptEntry := mkTranscriptEntry {
  te_timestamp : string;
  te_speaker : Speaker;
  te_text : string
}.

Inductive CallStatus := call_active | call_completed | call_on_hold.

(** The [call_data] dict; [cd_end_time] is absent until the call ends. *)
Record CallData := mkCallData {
  cd_call_id : string;
  cd_customer_id : string;
  cd_customer_phone : string;
  cd_customer_name : option string;
  cd_start_time : string;
  cd_status : CallStatus;
  cd_transcript : list TranscriptEntry;
  cd_end_time : option string
}.

(** [active_calls] is a dict keyed by call id: its values in insertion
    order, one per key. *)
Record LiveKitHandler := mkLiveKit {
  active_calls : list CallData;
  call_logs : list CallData
}.

(** [del d[i]] on a dict held as the list of its values. *)
Definition dict_del {D} (key : D -> string) (i : string) (c : list D) : list D :=
  filter (fun d => key d <> i) c.

(** [l[start:]] for any integer [start]. *)
Definition slice_from {A} (start : Z) (l : list A) : list A :=
  if (start <? 0)%Z
  then drop (Z.to_nat (Z.max 0 (Z.of_nat (length l) + start))) l
  else drop (Z.to_nat start) l.

Definition not_found (call_id : string) : string :=
  "Call " +:+ call_id +:+ " not found".

(** [LiveKitHandler.simulate_incoming_call]; [stamp] is the text of
    [datetime.now().timestamp()], [now] that of [datetime.now().isoformat()]. *)
Definition simulate_incoming_call (stamp now : string)
    (customer_id customer_phone : string) (customer_name : option string)
    (self : LiveKitHandler) : string * LiveKitHandler :=
  let call_id := "call_" +:+ customer_id +:+ "_" +:+ stamp in
  let call_data :=
    {| cd_call_id := call_id;
       cd_customer_id := customer_id;
       cd_customer_phone := customer_phone;
       cd_customer_name := customer_name;
       cd_start_time := now;
       cd_status := call_active;
       cd_transcript := [];
       cd_end_time := None |} in
  (call_id,
   {| active_calls := doc_set cd_call_id call_data (active_calls self);
      call_logs := call_logs self |}).

Definition add_transcript (entry : TranscriptEntry) (c : CallData) : CallData :=
  {| cd_call_id := cd_call_id c;
     cd_customer_id := cd_customer_id c;
     cd_customer_phone := cd_customer_phone c;
     cd_customer_name := cd_customer_name c;
     cd_start_time := cd_start_time c;
     cd_status := cd_status c;
     cd_transcript := cd_transcript c ++ [entry];
     cd_end_time := cd_end_time c |}.

Definition set_call_status (s : CallStatus) (c : CallData) : CallData :=
  {| cd_call_id := cd_call_id c;
     cd_customer_id := cd_customer_id c;
     cd_customer_phone := cd_customer_phone c;
     cd_customer_name := cd_customer_name c;
     cd_start_time := cd_start_time c;
     cd_status := s;
     cd_transcript := cd_transcript c;
     cd_end_time := cd_end_time c |}.

Definition complete_call (now : string) (c : CallData) : CallData :=
  {| cd_call_id := cd_call_id c;
     cd_customer_id := cd_customer_id c;
     cd_customer_phone := cd_customer_phone c;
     cd_customer_name := cd_customer_name c;
     cd_start_time := cd_start_time c;
     cd_status := call_completed;
     cd_transcript := cd_transcript c;
     cd_end_time := Some now |}.

(** An in-place change of the dict value at [call_id], or the [ValueError]
    of the membership test that opens every method. *)
Definition with_call (call_id : string) (f : CallData -> CallData)
    (self : LiveKitHandler) : Raises LiveKitHandler :=
  match doc_update cd_call_id call_id f (active_calls self) with
  | Some calls => Returns {| active_calls := calls; call_logs := call_logs self |}
  | None => ValueError (not_found call_id)
  end.

(** [LiveKitHandler.process_speech]; the returned dict is call id,
    transcription and timestamp. *)
Definition process_speech (now : string) (call_id speech_text : string)
    (self : LiveKitHandler) : Raises ((string * string * string) * LiveKitHandler) :=
  match with_call call_id
          (add_transcript (mkTranscriptEntry now speaker_customer speech_text)) self with
  | Returns self' => Returns ((call_id, speech_text, now), self')
  | ValueError m => ValueError m
  end.

(** [LiveKitHandler.send_speech_response] *)
Definition send_speech_response (now : string) (call_id response_text : string)
    (self : LiveKitHandler) : Raises LiveKitHandler :=
  with_call call_id
    (add_transcript (mkTranscriptEntry now speaker_ai_agent response_text)) self.

(** [LiveKitHandler.end_call] *)
Definition end_call (now : string) (call_id : string) (self : LiveKitHandler)
  : Raises (CallData * LiveKitHandler) :=
  match doc_get cd_call_id call_id (active_calls self) with
  | None => ValueError (not_found call_id)
  | Some call_data =>
      let call_data := complete_call now call_data in
      Returns (call_data,
               {| active_calls := dict_del cd_call_id call_id (active_calls self);
                  call_logs := call_logs self ++ [call_data] |})
  end.

(** [LiveKitHandler.put_on_hold] *)
Definition put_on_hold (call_id : string) (self : LiveKitHandler)
  : Raises LiveKitHandler :=
  with_call call_id (set_call_status call_on_hold) self.

(** [LiveKitHandler.resume_call] *)
Definition resume_call (call_id : string) (self : LiveKitHandler)
  : Raises LiveKitHandler :=
  with_call call_id (set_call_status call_active) self.

(** [LiveKitHandler.get_active_calls] *)
Definition get_active_calls (self : LiveKitHandler) : list CallData :=
  active_calls self.

(** [LiveKitHandler.get_call_logs]: [self.call_logs[-limit:]] *)
Definition get_call_logs (limit : Z) (self : LiveKitHandler) : list CallData :=
  slice_from (- limit) (call_logs self).

(* ===================================================================== *)
(** ** [main.py]: the connection manager and the endpoints *)
(* ===================================================================== *)

(** A websocket, by identity. *)
Definition WebSocket := nat.

(** The messages of [manager.broadcast]. *)
Inductive Event :=
| new_help_request (request_id : option string) (question customer_id : string)
| request_resolved (request_id : string).

Record ConnectionManager := mkManager {
  active_connections : list WebSocket
}.




(** The loop of [ConnectionManager.broadcast]: [send_json c m] tells whether
    the send to [c] goes through; a failed send is passed over.  The result
    is the list of deliveries, in order. *)
Fixpoint broadcast_to (send_json : WebSocket -> Event -> bool) (message : Event)
    (connections : list WebSocket) : list (WebSocket * Event) :=
  match connections with
  | [] => []
  | connection :: rest =>
      if send_json connection message
      then (connection, message) :: broadcast_to send_json message rest
      else broadcast_to send_json message rest
  end.

(** [ConnectionManager.broadcast] *)
Definition broadcast (send_json : WebSocket -> Event -> bool) (message : Event)
    (self : ConnectionManager) : list (WebSocket * Event) :=
  broadcast_to send_json message (active_connections self).

(** The module-level instances [db], [agent], [livekit_handler], [manager]. *)
Record App := mkApp {
  app_db : FirebaseDatabase;
  app_agent : AIAgent;
  app_livekit : LiveKitHandler;
  app_manager : ConnectionManager
}.

(** What an endpoint gives back: its body, or an [HTTPException]. *)
Inductive Http (A : Type) :=
| Body (body : A)
| HTTPException (status_code : Z) (detail : string).
Arguments Body {A} body.
Arguments HTTPException {A} status_code detail.

(** [models.CallSimulation] *)
Record CallSimulation := mkCallSimulation {
  cs_customer_id : string;
  cs_customer_phone : string;
  cs_question : string;
  cs_customer_name : option string
}.

(** The clock readings and draws of one [simulate_call]. *)
Record CallEnv := mkCallEnv {
  env_llm : list Message -> Completion;
  env_auto_id : string;
  env_ts : Z;
  env_stamp : string;
  env_start : string;
  env_heard : string;
  env_spoken : string;
  env_end : string;
  env_send_json : WebSocket -> Event -> bool
}.

(** The endpoint [simulate_call], run on its own: no other request is
    interleaved at its awaits.  An exception of a step leaves the state as
    the steps before it made it and becomes a 500. *)
Definition simulate_call (env : CallEnv) (call_data : CallSimulation) (app : App)
  : Http AgentResponse * App * list (WebSocket * Event) :=
  let '(call_id, lk) :=
    simulate_incoming_call (env_stamp env) (env_start env)
      (cs_customer_id call_data) (cs_customer_phone call_data)
      (cs_customer_name call_data) (app_livekit app) in
  match process_speech (env_heard env) call_id (cs_question call_data) lk with
  | ValueError e =>
      (HTTPException 500 e,
       {| app_db := app_db app; app_agent := app_agent app;
          app_livekit := lk; app_manager := app_manager app |}, [])
  | Returns (_, lk) =>
      let '(result, agent, db) :=
        process_question (env_llm env) (env_auto_id env) (env_ts env)
          (cs_question call_data) (cs_customer_id call_data)
          (Some (cs_customer_phone call_data)) (Some [("call_id", call_id)])
          (app_agent app) (app_db app) in
      match send_speech_response (env_spoken env) call_id (response result) lk with
      | ValueError e =>
          (HTTPException 500 e,
           {| app_db := db; app_agent := agent;
              app_livekit := lk; app_manager := app_manager app |}, [])
      | Returns lk =>
          match end_call (env_end env) call_id lk with
          | ValueError e =>
              (HTTPException 500 e,
               {| app_db := db; app_agent := agent;
                  app_livekit := lk; app_manager := app_manager app |}, [])
          | Returns (_, lk) =>
              let sent :=
                if needs_help result
                then broadcast (env_send_json env)
                       (new_help_request (help_request_id result)
                          (cs_question call_data) (cs_customer_id call_data))
                       (app_manager app)
                else [] in
              (Body result,
               {| app_db := db; app_agent := agent;
                  app_livekit := lk; app_manager := app_manager app |}, sent)
          end
      end
  end.

(** The endpoint [create_help_request] of [main.py]; the body is the id. *)
Definition api_create_help_request (send_json : WebSocket -> Event -> bool)
    (auto_id : string) (ts : Z)
    (question customer_id : string) (customer_phone : option string)
    (context : option CallerContext) (app : App)
  : Http string * App * list (WebSocket * Event) :=
  let '(request_id, db) :=
    create_help_request auto_id ts question customer_id customer_phone
      (CtxDict <$> context) (app_db app) in
  (Body request_id,
   {| app_db := db; app_agent := app_agent app;
      app_livekit := app_livekit app; app_manager := app_manager app |},
   broadcast send_json (new_help_request (Some request_id) question customer_id)
     (app_manager app)).

(** The endpoint [get_help_request] of [main.py]. *)
Definition api_get_help_request (request_id : string) (app : App) : Http HelpRequest :=
  match get_help_request request_id (app_db app) with
  | None => HTTPException 404 "Request not found"
  | Some request => Body request
  end.

(** The endpoint [respond_to_request]; the body is the status text. *)
Definition respond_to_request (send_json : WebSocket -> Event -> bool)
    (auto_id : string) (ts : Z)
    (request_id supervisor_answer supervisor_id : string) (app : App)
  : Http string * App * list (WebSocket * Event) :=
  let '(success, agent, db) :=
    handle_supervisor_response auto_id ts request_id supervisor_answer supervisor_id
      (app_agent app) (app_db app) in
  let app :=
    {| app_db := db; app_agent := agent;
       app_livekit := app_livekit app; app_manager := app_manager app |} in
  if success
  then (Body "success", app,
        broadcast send_json (request_resolved request_id) (app_manager app))
  else (HTTPException 404 "Request not found", app, []).

(** The body of [get_statistics]. *)
Record Statistics := mkStatistics {
  total_requests : nat;
  pending_requests : nat;
  resolved_requests : nat;
  unresolved_requests : nat;
  knowledge_base_size : nat;
  stat_active_calls : nat
}.

(** [len([r for r in all_requests if r.get('status') == s])] *)
Definition count_status (s : RequestStatus) (all_requests : list HelpRequest) : nat :=
  length (filter (fun r => hr_status r = s) all_requests).

(** The endpoint [get_statistics]. *)
Definition get_statistics (app : App) : Statistics :=
  let all_requests := get_all_requests 1000 (app_db app) in
  let all_knowledge := get_all_knowledge 1000 (app_db app) in
  {| total_requests := length all_requests;
     pending_requests := count_status PENDING all_requests;
     resolved_requests := count_status RESOLVED all_requests;
     unresolved_requests := count_status UNRESOLVED all_requests;
     knowledge_base_size := length all_knowledge;
     stat_active_calls := length (get_active_calls (app_livekit app)) |}.

(* ===================================================================== *)
(** ** Definitions used in the statements *)
(* ===================================================================== *)

(** [c'] is [c] with the one document [x] added somewhere, every other
    document kept, in the same order. *)
Definition adds_one {D} (x : D) (c c' : list D) : Prop :=
  exists before after, c = before ++ after /\ c' = before ++ x :: after.

(** Document ids are unique in both collections of the store. *)
Definition wf_db (db : FirebaseDatabase) : Prop :=
  wf_collection hr_id (requests_collection db)
  /\ wf_collection kb_id (knowledge_collection db).

(** Every creation date is the datetime object of a server timestamp. *)
Definition server_dates (db : FirebaseDatabase) : Prop :=
  forall r, r ∈ requests_collection db -> exists t, hr_created_at r = PyDatetime t.

(** The window in the words of the specification: the last [n] turn-pairs,
    a pair being a customer turn followed by the agent turn. *)
Definition spec_last_turn_pairs (n : nat) (turns : list Message) : list Message :=
  PyStr.last_n (2 * n) turns.

(* ===================================================================== *)
(** ** Sample data *)
(* ===================================================================== *)

(** Sample data used to run the definitions. *)
Module Samples.

Definition hours_entry : KnowledgeBase :=
  {| kb_id := "kb-hours";
     kb_question := "What are your hours?";
     kb_answer := "9-8 Mon-Sat";
     kb_source := "initial";
     kb_tags := ["hours"; "schedule"];
     kb_created_at := 1000;
     kb_updated_at := 1000;
     kb_usage_count := 4 |}.

Definition walkin_entry : KnowledgeBase :=
  {| kb_id := "kb-walkin";
     kb_question := "Do you take walk-ins?";
     kb_answer := "Yes! We accept walk-ins during opening hours.";
     kb_source := "initial";
     kb_tags := ["appointments"; "walk-ins"];
     kb_created_at := 1000;
     kb_updated_at := 1000;
     kb_usage_count := 0 |}.

Definition location_entry : KnowledgeBase :=
  {| kb_id := "kb-location";
     kb_question := "Where are you located?";
     kb_answer := "We're located at 123 Main Street, Downtown.";
     kb_source := "initial";
     kb_tags := ["location"; "parking"];
     kb_created_at := 1000;
     kb_updated_at := 1000;
     kb_usage_count := 0 |}.

Definition db0 : FirebaseDatabase :=
  {| requests_collection := [];
     knowledge_collection := [location_entry; hours_entry; walkin_entry] |}.

Definition turn (n : string) : list Message :=
  [ mkMessage user ("question " +:+ n);
    mkMessage assistant ("answer " +:+ n) ].

(** An agent that has exchanged five question/answer pairs with [alice]. *)
Definition agent0 : AIAgent :=
  {| system_prompt := "You are an AI receptionist.";
     conversation_history :=
       {[ "alice" := turn "1" ++ turn "2" ++ turn "3" ++ turn "4" ++ turn "5" ]} |}.

Definition llm_escalates (_ : list Message) : Completion :=
  Reply "[ESCALATE] unsure".

Definition llm_fails (_ : list Message) : Completion :=
  Failure "Request timed out.".

Definition llm_answers (_ : list Message) : Completion :=
  Reply "  A women's cut is $65.  ".

End Samples.

Module ResolutionSamples.

Definition pending_request : HelpRequest :=
  {| hr_id := "req-1";
     hr_question := "Do you do balayage?";
     hr_customer_id := "alice";
     hr_customer_phone := Some "+15551234567";
     hr_context := CtxSnapshot [] [("call_id", "call-7")];
     hr_status := PENDING;
     hr_created_at := PyDatetime 5000;
     hr_resolved_at := None;
     hr_supervisor_answer := None;
     hr_supervisor_id := None |}.

(** [pending_request] after a first resolution with answer [X]. *)
Definition resolved_request : HelpRequest :=
  set_supervisor_fields "X" "supervisor_1" RESOLVED 7000 pending_request.

Definition db_pending : FirebaseDatabase :=
  {| requests_collection := [pending_request];
     knowledge_collection := knowledge_collection Samples.db0 |}.

Definition db_resolved : FirebaseDatabase :=
  {| requests_collection := [resolved_request];
     knowledge_collection :=
       knowledge_collection Samples.db0
       ++ [knowledge_data "kb-learned-1" 7000 (hr_question pending_request) "X" "supervisor"
            (Some ["learned"; "supervisor_response"])] |}.

End ResolutionSamples.

Module SweepSamples.

(** A sweep time, in microseconds. *)
Definition now : Z := 1762164000000000.

Definition empty_db : FirebaseDatabase :=
  {| requests_collection := []; knowledge_collection := [] |}.

(** One request created three days before [now] and one created one day
    before, both by [create_help_request]. *)
Definition db : FirebaseDatabase :=
  (create_help_request "req-new" (now - timedelta_days 1)
     "Is parking free?" "bob" None None
     (create_help_request "req-old" (now - timedelta_days 3)
        "Do you do balayage?" "alice" None None empty_db).2).2.

(** The same two requests with their creation dates kept as ISO text. *)
Definition as_text (s : string) (r : HelpRequest) : HelpRequest :=
  {| hr_id := hr_id r;
     hr_question := hr_question r;
     hr_customer_id := hr_customer_id r;
     hr_customer_phone := hr_customer_phone r;
     hr_context := hr_context r;
     hr_status := hr_status r;
     hr_created_at := PyStr s;
     hr_resolved_at := hr_resolved_at r;
     hr_supervisor_answer := hr_supervisor_answer r;
     hr_supervisor_id := hr_supervisor_id r |}.

Definition text_db : FirebaseDatabase :=
  {| requests_collection :=
       match requests_collection db with
       | [old; new] =>
           [as_text "2025-10-31T10:00:00" old; as_text "2025-11-02T10:00:00" new]
       | l => l
       end;
     knowledge_collection := [] |}.

(** A parser that knows the two dates of [text_db]. *)
Definition parse_two (s : string) : option Z :=
  if String.eqb s "2025-10-31T10:00:00" then Some (now - timedelta_days 3)%Z
  else if String.eqb s "2025-11-02T10:00:00" then Some (now - timedelta_days 1)%Z
  else None.

End SweepSamples.

Module CallSamples.

Definition idle : LiveKitHandler := {| active_calls := []; call_logs := [] |}.

(** The handler after [alice] has called in. *)
Definition ringing : string * LiveKitHandler :=
  simulate_incoming_call "1762164000.5" "2025-11-03T10:00:00.500000"
    "alice" "+15551234567" (Some "Alice") idle.

(** Three supervisor dashboards are connected; the second has gone away
    without disconnecting, so sends to it fail. *)
Definition send_json (ws : WebSocket) (_ : Event) : bool := negb (ws =? 2)%nat.

Definition app0 : App :=
  {| app_db := Samples.db0;
     app_agent := Samples.agent0;
     app_livekit := idle;
     app_manager := {| active_connections := [1; 2; 3]%nat |} |}.

Definition env0 : CallEnv :=
  {| env_llm := Samples.llm_escalates;
     env_auto_id := "req-1";
     env_ts := 5000;
     env_stamp := "1762164000.5";
     env_start := "2025-11-03T10:00:00.500000";
     env_heard := "2025-11-03T10:00:00.600000";
     env_spoken := "2025-11-03T10:00:02.100000";
     env_end := "2025-11-03T10:00:02.700000";
     env_send_json := send_json |}.

Definition call0 : CallSimulation :=
  {| cs_customer_id := "alice";
     cs_customer_phone := "+15551234567";
     cs_question := "Do you do balayage?";
     cs_customer_name := Some "Alice" |}.

End CallSamples.

(* ===================================================================== *)
(** ** Facts about the text primitives *)
(* ===================================================================== *)

Module PyStrFacts.
Import PyStr.

Lemma append_nil (r : string) : EmptyString +:+ r = r.
Proof. reflexivity. Qed.

Lemma append_cons (a : ascii) (p r : string) :
  String a p +:+ r = String a (p +:+ r).
Proof. reflexivity. Qed.

Lemma startswith_app (s p : string) :
  startswith s p = true <-> exists rest, s = p +:+ rest.
Proof.
  revert s. induction p as [|a p IH]; intros s; simpl.
  - split; [intros _; by exists s | done].
  - destruct s as [|b s]; simpl.
    + split; [done | by intros [rest ?]].
    + setoid_rewrite append_cons.
      destruct (Ascii.eqb_spec a b) as [->|Hne].
      * rewrite IH. split; intros [rest Hr]; exists rest; congruence.
      * split; [done | intros [rest Hr]; congruence].
Qed.

(** [needle in hay] holds exactly when [hay] is some text, then [needle],
    then some text. *)
Lemma contains_app (needle hay : string) :
  contains needle hay = true
  <-> exists before after, hay = before +:+ needle +:+ after.
Proof.
  induction hay as [|c hay IH]; simpl.
  - rewrite orb_false_r, startswith_app. split.
    + intros [rest Hr]. by exists EmptyString, rest.
    + intros [[|b before] [after Hr]]; [by exists after | done].
  - rewrite orb_true_iff, startswith_app, IH. split.
    + intros [[rest Hr] | (before & after & Hr)].
      * by exists EmptyString, rest.
      * exists (String c before), after. rewrite append_cons. by rewrite Hr.
    + intros [[|b before] [after Hr]].
      * left. by exists after.
      * right. exists before, after. rewrite append_cons in Hr. congruence.
Qed.

Lemma startswith_rstrip (p s : string) :
  ends_visible p = true ->
  startswith s p = true -> startswith (rstrip s) p = true.
Proof.
  revert s. induction p as [|a p IH]; intros s Hend Hs; [done|].
  destruct s as [|b s]; [done|]. simpl in Hs.
  destruct (Ascii.eqb_spec a b) as [->|]; [|done].
  destruct p as [|a' p].
  - simpl in Hend. simpl.
    destruct (rstrip s); simpl.
    + destruct (is_space b); [done|]. simpl. by rewrite Ascii.eqb_refl.
    + by rewrite Ascii.eqb_refl.
  - specialize (IH s Hend Hs). simpl.
    destruct (rstrip s) as [|c r] eqn:Hr; [done|].
    cbn [startswith]. by rewrite Ascii.eqb_refl.
Qed.

Lemma startswith_lstrip (c : ascii) (p s : string) :
  is_space c = false ->
  startswith s (String c p) = true -> lstrip s = s.
Proof.
  intros Hc Hs. destruct s as [|b s]; [done|]. simpl in Hs.
  destruct (Ascii.eqb_spec c b) as [->|]; [|done].
  simpl. by rewrite Hc.
Qed.

(** A reply that starts with the marker still does after [strip]. *)
Lemma startswith_strip_marker (text : string) :
  startswith text "[ESCALATE]" = true ->
  startswith (strip text) "[ESCALATE]" = true.
Proof.
  intros H. unfold strip.
  rewrite (startswith_lstrip "["%char "ESCALATE]" text); [|done..].
  by apply startswith_rstrip.
Qed.

Lemma last_n_length {A} (n : nat) (l : list A) :
  length (last_n n l) = Nat.min n (length l).
Proof. unfold last_n. rewrite length_drop. lia. Qed.

Lemma last_n_suffix {A} (n : nat) (l : list A) :
  exists older, l = older ++ last_n n l.
Proof. exists (take (length l - n) l). unfold last_n. by rewrite take_drop. Qed.

Lemma last_n_short {A} (n : nat) (l : list A) :
  length l <= n -> last_n n l = l.
Proof. intros H. unfold last_n. by replace (length l - n) with 0 by lia. Qed.

End PyStrFacts.

(* ===================================================================== *)
(** ** Facts about collections *)
(* ===================================================================== *)

Section CollectionFacts.
Context {D : Type} (key : D -> string).

Lemma doc_get_split (i : string) (c : list D) (d : D) :
  doc_get key i c = Some d ->
  exists before after,
    c = before ++ d :: after /\ key d = i /\ i ∉ ids key before.
Proof.
  induction c as [|x c IH]; simpl; [done|].
  case_decide as Hx.
  - intros [= ->]. exists [], c. split_and!; [done..|]. unfold ids. set_solver.
  - intros (before & after & -> & Hk & Hn)%IH.
    exists (x :: before), after. split_and!; [done..|].
    unfold ids in *. set_solver.
Qed.

Lemma doc_get_first (i : string) (before after : list D) (d : D) :
  key d = i -> i ∉ ids key before ->
  doc_get key i (before ++ d :: after) = Some d.
Proof.
  intros Hk. induction before as [|x before IH]; simpl; intros Hn.
  - by rewrite decide_True.
  - unfold ids in *. rewrite decide_False by set_solver. apply IH. set_solver.
Qed.

Lemma doc_get_None (i : string) (c : list D) :
  doc_get key i c = None <-> i ∉ ids key c.
Proof.
  unfold ids. induction c as [|x c IH]; simpl; [set_solver|].
  case_decide; [set_solver|]. rewrite IH. set_solver.
Qed.

Lemma doc_get_elem (c : list D) (d : D) :
  wf_collection key c -> d ∈ c -> doc_get key (key d) c = Some d.
Proof.
  unfold wf_collection, ids.
  induction c as [|x c IH]; simpl; [set_solver|].
  intros [Hx Hc]%NoDup_cons [->|Hd]%elem_of_cons.
  - by rewrite decide_True.
  - rewrite decide_False; [by apply IH|].
    intros Heq. apply Hx. rewrite Heq. apply list_elem_of_fmap. eauto.
Qed.

Lemma doc_update_first (i : string) (f : D -> D) (before after : list D) (d : D) :
  key d = i -> i ∉ ids key before ->
  doc_update key i f (before ++ d :: after) = Some (before ++ f d :: after).
Proof.
  intros Hk. induction before as [|x before IH]; simpl; intros Hn.
  - by rewrite decide_True.
  - unfold ids in *. rewrite decide_False by set_solver.
    rewrite IH by set_solver. done.
Qed.

Lemma doc_update_None (i : string) (f : D -> D) (c : list D) :
  doc_get key i c = None -> doc_update key i f c = None.
Proof.
  induction c as [|x c IH]; simpl; [done|].
  case_decide; [done|]. intros ->%IH. done.
Qed.

(** An update of document [j] does not change what is read at [i]. *)
Lemma doc_get_update_ne (i j : string) (f : D -> D) (c c' : list D) :
  (forall d, key (f d) = key d) ->
  i <> j -> doc_update key j f c = Some c' ->
  doc_get key i c' = doc_get key i c.
Proof.
  intros Hf Hij. revert c'. induction c as [|x c IH]; simpl; intros c'; [done|].
  case_decide as Hx.
  - intros [= <-]. simpl. rewrite Hf.
    rewrite !decide_False by congruence. done.
  - destruct (doc_update key j f c) as [c''|] eqn:Hu; simpl; [|done].
    intros [= <-]. simpl. case_decide; [done|]. by apply IH.
Qed.

Lemma doc_set_fresh (data : D) (c : list D) :
  key data ∉ ids key c -> doc_set key data c = c ++ [data].
Proof.
  unfold ids. induction c as [|x c IH]; simpl; intros Hn; [done|].
  rewrite decide_False by set_solver. rewrite IH by set_solver. done.
Qed.

Lemma doc_get_set (data : D) (c : list D) :
  doc_get key (key data) (doc_set key data c) = Some data.
Proof.
  induction c as [|x c IH]; simpl.
  - by rewrite decide_True.
  - case_decide as Hx; simpl.
    + by rewrite decide_True.
    + by rewrite decide_False.
Qed.

(** An update of document [i] is read back at [i]. *)
Lemma doc_get_update_eq (i : string) (f : D -> D) (c c' : list D) :
  (forall d, key (f d) = key d) ->
  doc_update key i f c = Some c' ->
  doc_get key i c' = f <$> doc_get key i c.
Proof.
  intros Hf. revert c'. induction c as [|x c IH]; simpl; intros c'; [done|].
  case_decide as Hx.
  - intros [= <-]. simpl. rewrite Hf. by rewrite decide_True.
  - destruct (doc_update key i f c) as [c''|] eqn:Hu; simpl; [|done].
    intros [= <-]. simpl. rewrite decide_False by done. by apply IH.
Qed.

Lemma elem_of_doc_set (data x : D) (c : list D) :
  x ∈ doc_set key data c -> x = data \/ x ∈ c.
Proof.
  induction c as [|d c IH]; simpl.
  - intros ->%list_elem_of_singleton. by left.
  - case_decide; intros [->|Hx]%elem_of_cons; auto using list_elem_of_here.
    + right. by apply list_elem_of_further.
    + destruct (IH Hx); auto using list_elem_of_further.
Qed.

Lemma elem_of_doc_update (i : string) (f : D -> D) (x : D) (c c' : list D) :
  doc_update key i f c = Some c' -> x ∈ c' ->
  x ∈ c \/ exists d, d ∈ c /\ x = f d.
Proof.
  revert c'. induction c as [|d c IH]; simpl; intros c'; [done|].
  case_decide.
  - intros [= <-] [->|Hx]%elem_of_cons.
    + right. exists d. split; [left|done].
    + left. by right.
  - destruct (doc_update key i f c) as [c''|]; simpl; [|done].
    intros [= <-] [->|Hx]%elem_of_cons; [left; left|].
    destruct (IH c'' eq_refl Hx) as [?|(d' & ? & ?)].
    + left. by right.
    + right. exists d'. split; [by right|done].
Qed.

Lemma doc_set_adds_one (data : D) (c : list D) :
  key data ∉ ids key c -> adds_one data c (doc_set key data c).
Proof.
  intros Hfresh. exists c, []. rewrite app_nil_r. split; [done|].
  by apply doc_set_fresh.
Qed.

Lemma doc_set_ids_known (data : D) (c : list D) :
  key data ∈ ids key c -> ids key (doc_set key data c) = ids key c.
Proof.
  unfold ids. induction c as [|x c IH]; simpl; [by intros ?%elem_of_nil|].
  case_decide as Hx; simpl; [by rewrite Hx|].
  intros [Heq|Hin]%elem_of_cons; [congruence|]. f_equal. by apply IH.
Qed.

Lemma doc_set_wf (data : D) (c : list D) :
  wf_collection key c -> wf_collection key (doc_set key data c).
Proof.
  unfold wf_collection. intros Hwf.
  destruct (decide (key data ∈ ids key c)) as [Hin|Hfresh].
  - by rewrite doc_set_ids_known.
  - rewrite doc_set_fresh by done. unfold ids in *. rewrite fmap_app. simpl.
    apply NoDup_app. split_and!; [done| |apply NoDup_singleton].
    intros i Hi ->%list_elem_of_singleton. done.
Qed.

Lemma doc_update_ids (i : string) (f : D -> D) (c c' : list D) :
  (forall d, key (f d) = key d) ->
  doc_update key i f c = Some c' -> ids key c' = ids key c.
Proof.
  intros Hf. unfold ids. revert c'.
  induction c as [|x c IH]; simpl; intros c'; [done|].
  case_decide.
  - intros [= <-]. simpl. by rewrite Hf.
  - destruct (doc_update key i f c) as [c''|]; simpl; [|done].
    intros [= <-]. simpl. f_equal. by apply IH.
Qed.

End CollectionFacts.

Lemma adds_one_length {D} (x : D) (c c' : list D) :
  adds_one x c c' -> length c' = S (length c).
Proof. intros (before & after & -> & ->). rewrite !length_app. simpl. lia. Qed.

Lemma adds_one_elem {D} (x y : D) (c c' : list D) :
  adds_one x c c' -> y ∈ c' <-> y = x \/ y ∈ c.
Proof.
  intros (before & after & -> & ->).
  rewrite !elem_of_app, elem_of_cons. tauto.
Qed.

(* ===================================================================== *)
(** ** Facts about the store and the agent *)
(* ===================================================================== *)

(** The first entry of the collection that matches is the head of the search
    result. *)
Lemma search_knowledge_first (query : string) (db : FirebaseDatabase) (e : KnowledgeBase) :
  e ∈ knowledge_collection db -> matches query e = true ->
  exists before k after,
    knowledge_collection db = before ++ k :: after
    /\ (forall x, x ∈ before -> matches query x = false)
    /\ matches query k = true
    /\ search_knowledge query db
       = k :: filter (fun data => matches query data = true) after.
Proof.
  unfold search_knowledge. generalize (knowledge_collection db) as c.
  induction c as [|x c IH]; intros He Hm; [by apply elem_of_nil in He|].
  destruct (matches query x) eqn:Hx.
  - exists [], x, c. split_and!; [done|set_solver|done|].
    by rewrite filter_cons_True.
  - assert (e ∈ c) as Hin.
    { apply elem_of_cons in He as [->|]; [congruence|done]. }
    destruct (IH Hin Hm) as (before & k & after & -> & Hb & Hk & Hs).
    exists (x :: before), k, after. split_and!; [done| |done|].
    + intros y [->|Hy]%elem_of_cons; [done|by apply Hb].
    + rewrite filter_cons_False by congruence. done.
Qed.

Lemma search_knowledge_nil (query : string) (db : FirebaseDatabase) :
  search_knowledge query db = []
  <-> forall e, e ∈ knowledge_collection db -> matches query e = false.
Proof.
  unfold search_knowledge. split.
  - intros Hnil e He. destruct (matches query e) eqn:Hm; [|done].
    assert (e ∈ filter (fun data => matches query data = true) (knowledge_collection db))
      as Hin by (by apply list_elem_of_filter).
    rewrite Hnil in Hin. by apply elem_of_nil in Hin.
  - intros Hall. induction (knowledge_collection db) as [|x c IH]; [done|].
    rewrite filter_cons_False.
    + apply IH. intros e He. apply Hall. by right.
    + rewrite Hall by left. done.
Qed.

Lemma turns_of_init_history (customer_id c : string) (h : gmap string (list Message)) :
  turns_of (init_history customer_id h) c = turns_of h c.
Proof.
  unfold turns_of, init_history. destruct (h !! customer_id) eqn:Hc; [done|].
  destruct (decide (customer_id = c)) as [->|Hne].
  - by rewrite lookup_insert_eq, Hc.
  - by rewrite lookup_insert_ne.
Qed.

Lemma init_history_lookup_ne (customer_id c : string) (h : gmap string (list Message)) :
  c <> customer_id -> init_history customer_id h !! c = h !! c.
Proof.
  intros Hne. unfold init_history. destruct (h !! customer_id); [done|].
  by rewrite lookup_insert_ne.
Qed.

Lemma init_history_lookup (customer_id : string) (h : gmap string (list Message)) :
  init_history customer_id h !! customer_id = Some (turns_of h customer_id).
Proof.
  unfold init_history, turns_of. destruct (h !! customer_id) eqn:Hc.
  - by rewrite Hc.
  - by rewrite lookup_insert_eq.
Qed.

Lemma build_messages_init (self : AIAgent) (customer_id question : string) :
  build_messages (with_history self (init_history customer_id (conversation_history self)))
    customer_id question
  = build_messages self customer_id question.
Proof. unfold build_messages. simpl. by rewrite turns_of_init_history. Qed.

(** The window of the history sent to the model: the last five entries of
    the customer's list, each entry one message. *)
Lemma build_messages_window (self : AIAgent) (customer_id question : string) :
  exists window,
    build_messages self customer_id question
    = [ mkMessage system (system_prompt self); mkMessage system ESCALATION_RULES ]
      ++ window ++ [ mkMessage user question ]
    /\ window = PyStr.last_n 5 (turns_of (conversation_history self) customer_id)
    /\ length window
       = Nat.min 5 (length (turns_of (conversation_history self) customer_id)).
Proof.
  eexists. split_and!; [done..|]. apply PyStrFacts.last_n_length.
Qed.

Lemma wf_collection_split {D} (key : D -> string) (before after : list D) (d : D) :
  wf_collection key (before ++ d :: after) -> key d ∉ ids key before.
Proof.
  unfold wf_collection, ids. rewrite fmap_app, fmap_cons.
  intros (_ & Hdisj & _)%NoDup_app Hin. apply (Hdisj _ Hin). left.
Qed.

Example sample_hit :
  (process_question Samples.llm_answers "req-1" 5000 "what are your hours" "bob"
     None None Samples.agent0 Samples.db0).1.1
  = {| response := "9-8 Mon-Sat"; needs_help := false;
       help_request_id := None; knowledge_used := Some "kb-hours" |}.
Proof. reflexivity. Qed.

Example sample_plain_answer :
  (process_question Samples.llm_answers "req-1" 5000 "How much is a women's cut?" "bob"
     None None Samples.agent0 Samples.db0).1.1
  = {| response := "A women's cut is $65."; needs_help := false;
       help_request_id := None; knowledge_used := None |}.
Proof. reflexivity. Qed.

Example sample_rules_text :
  String.length ESCALATION_RULES = 583%nat
  /\ PyStr.contains "[ESCALATE]" ESCALATION_RULES = true.
Proof. split; reflexivity. Qed.

(* ===================================================================== *)
(** ** The escalation engine: [process_question] *)
(* ===================================================================== *)

Section ProcessQuestion.
Variable llm : list Message -> Completion.
Variables (auto_id : string) (ts : Z).
Variables (question customer_id : string).
Variable customer_phone : option string.
Variable context : option CallerContext.
Variables (self : AIAgent) (db : FirebaseDatabase).

Local Abbreviation run :=
  (process_question llm auto_id ts question customer_id customer_phone context self db).

(** The Pending document written on this call, with context [ctx]. *)
Local Abbreviation new_request ctx :=
  (request_data auto_id ts question customer_id customer_phone (Some ctx)).

Lemma run_hit (k : KnowledgeBase) (rest : list KnowledgeBase) :
  search_knowledge question db = k :: rest ->
  run = ({| response := kb_answer k; needs_help := false;
            help_request_id := None; knowledge_used := Some (kb_id k) |},
         with_history self (init_history customer_id (conversation_history self)),
         (increment_knowledge_usage (kb_id k) db).2).
Proof.
  intros Hs. unfold process_question. rewrite Hs.
  by destruct (increment_knowledge_usage (kb_id k) db).
Qed.

Lemma run_escalate (text : string) :
  search_knowledge question db = [] ->
  llm (build_messages self customer_id question) = Reply text ->
  PyStr.startswith (PyStr.strip text) ESCALATE = true ->
  run = ({| response := escalation_message; needs_help := true;
            help_request_id := Some auto_id; knowledge_used := None |},
         with_history self
           (append_turns customer_id
              [ mkMessage user question; mkMessage assistant escalation_message ]
              (init_history customer_id (conversation_history self))),
         {| requests_collection :=
              doc_set hr_id
                (new_request
                   (CtxSnapshot
                      (PyStr.last_n 3 (turns_of (conversation_history self) customer_id))
                      (default [] context)))
                (requests_collection db);
            knowledge_collection := knowledge_collection db |}).
Proof.
  intros Hs Hl He. unfold process_question.
  rewrite Hs, build_messages_init, Hl, He. simpl.
  by rewrite turns_of_init_history.
Qed.

Lemma run_answer (text : string) :
  search_knowledge question db = [] ->
  llm (build_messages self customer_id question) = Reply text ->
  PyStr.startswith (PyStr.strip text) ESCALATE = false ->
  run = ({| response := PyStr.strip text; needs_help := false;
            help_request_id := None; knowledge_used := None |},
         with_history self
           (append_turns customer_id
              [ mkMessage user question; mkMessage assistant (PyStr.strip text) ]
              (init_history customer_id (conversation_history self))),
         db).
Proof.
  intros Hs Hl He. unfold process_question.
  by rewrite Hs, build_messages_init, Hl, He.
Qed.

Lemma run_failure (e : string) :
  search_knowledge question db = [] ->
  llm (build_messages self customer_id question) = Failure e ->
  run = ({| response := trouble_message; needs_help := true;
            help_request_id := Some auto_id; knowledge_used := None |},
         with_history self (init_history customer_id (conversation_history self)),
         {| requests_collection :=
              doc_set hr_id (new_request (CtxError e)) (requests_collection db);
            knowledge_collection := knowledge_collection db |}).
Proof.
  intros Hs Hl. unfold process_question.
  by rewrite Hs, build_messages_init, Hl.
Qed.

(** [process_question] follows one of four paths. *)
Lemma run_cases :
  (exists k rest, search_knowledge question db = k :: rest)
  \/ (exists text, search_knowledge question db = []
        /\ llm (build_messages self customer_id question) = Reply text
        /\ PyStr.startswith (PyStr.strip text) ESCALATE = true)
  \/ (exists text, search_knowledge question db = []
        /\ llm (build_messages self customer_id question) = Reply text
        /\ PyStr.startswith (PyStr.strip text) ESCALATE = false)
  \/ (exists e, search_knowledge question db = []
        /\ llm (build_messages self customer_id question) = Failure e).
Proof.
  destruct (search_knowledge question db) as [|k rest]; [|left; eauto].
  right. destruct (llm (build_messages self customer_id question)) as [text|e].
  - destruct (PyStr.startswith (PyStr.strip text) ESCALATE) eqn:He.
    + left. eauto.
    + right. left. eauto.
  - right. right. eauto.
Qed.

(** C4. Knowledge hit: when some stored entry contains the question (lower
    case against lower case) in its question or answer text, the result is
    the answer of the first such entry in store order, with
    [needs_help = false] and [knowledge_used] its id; the usage count of
    that entry, and of no other, goes up by one; no request is created and
    the customer's turns are the same as before. *)
Theorem process_question_knowledge_hit (e : KnowledgeBase) :
  wf_collection kb_id (knowledge_collection db) ->
  e ∈ knowledge_collection db ->
  matches question e = true ->
  exists before k after self' db',
    knowledge_collection db = before ++ k :: after
    /\ (forall x, x ∈ before -> matches question x = false)
    /\ matches question k = true
    /\ run = ({| response := kb_answer k; needs_help := false;
                 help_request_id := None; knowledge_used := Some (kb_id k) |},
              self', db')
    /\ knowledge_collection db' = before ++ incr_usage k :: after
    /\ kb_usage_count (incr_usage k) = (kb_usage_count k + 1)%Z
    /\ requests_collection db' = requests_collection db
    /\ turns_of (conversation_history self') customer_id
       = turns_of (conversation_history self) customer_id.
Proof.
  intros Hwf He Hm.
  destruct (search_knowledge_first question db e He Hm)
    as (before & k & after & Hsplit & Hbefore & Hk & Hsearch).
  exists before, k, after. do 2 eexists.
  split_and!; [done..| by apply run_hit in Hsearch | | done | |].
  - unfold increment_knowledge_usage. rewrite Hsplit.
    rewrite (doc_update_first kb_id (kb_id k)); [done|done|].
    rewrite Hsplit in Hwf. by apply wf_collection_split in Hwf.
  - unfold increment_knowledge_usage.
    by destruct (doc_update _ _ _ _).
  - simpl. apply turns_of_init_history.
Qed.

(** C5. Escalation on the marker: with no knowledge match and a model reply
    that starts with [[ESCALATE]], the result is the fixed deferral text
    with [needs_help = true] and the id of the new request; exactly one
    document is added to the requests, Pending and with the input
    question; the customer's history grows by exactly the question and
    the deferral message. *)
Theorem process_question_escalates_on_marker (text : string) :
  (forall e, e ∈ knowledge_collection db -> matches question e = false) ->
  llm (build_messages self customer_id question) = Reply text ->
  PyStr.startswith text ESCALATE = true ->
  auto_id ∉ ids hr_id (requests_collection db) ->
  exists self' db' request,
    run = ({| response := escalation_message; needs_help := true;
              help_request_id := Some auto_id; knowledge_used := None |},
           self', db')
    /\ adds_one request (requests_collection db) (requests_collection db')
    /\ hr_id request = auto_id
    /\ hr_status request = PENDING
    /\ hr_question request = question
    /\ knowledge_collection db' = knowledge_collection db
    /\ turns_of (conversation_history self') customer_id
       = turns_of (conversation_history self) customer_id
         ++ [ mkMessage user question; mkMessage assistant escalation_message ].
Proof.
  intros Hmiss%search_knowledge_nil Hl Hmark%PyStrFacts.startswith_strip_marker Hfresh.
  do 3 eexists. split; [by apply (run_escalate text)|].
  simpl. split_and!; [by apply doc_set_adds_one|done..|].
  unfold append_turns, turns_of at 1.
  by rewrite lookup_insert_eq, turns_of_init_history.
Qed.

(** C6. Failure of the model call: with no knowledge match and a failed
    call, [process_question] still returns a result, a deferral message
    with [needs_help = true] and the id of the new request, and exactly
    one document is added to the requests, Pending, with the input
    question and the failure text as its context. *)
Theorem process_question_recovers_from_failure (e : string) :
  (forall k, k ∈ knowledge_collection db -> matches question k = false) ->
  llm (build_messages self customer_id question) = Failure e ->
  auto_id ∉ ids hr_id (requests_collection db) ->
  exists self' db' request,
    run = ({| response := trouble_message; needs_help := true;
              help_request_id := Some auto_id; knowledge_used := None |},
           self', db')
    /\ adds_one request (requests_collection db) (requests_collection db')
    /\ hr_id request = auto_id
    /\ hr_status request = PENDING
    /\ hr_question request = question
    /\ hr_context request = CtxError e
    /\ knowledge_collection db' = knowledge_collection db.
Proof.
  intros Hmiss%search_knowledge_nil Hl Hfresh.
  do 3 eexists. split; [by apply (run_failure e)|].
  simpl. split_and!; [by apply doc_set_adds_one|done..].
Qed.

(** C9. In every result, [needs_help] is true exactly when
    [help_request_id] is set, and [knowledge_used] is set only when
    [needs_help] is false. *)
Theorem process_question_result_invariant :
  let result :=
    (process_question llm auto_id ts question customer_id customer_phone context
       self db).1.1 in
  (needs_help result = true <-> is_Some (help_request_id result))
  /\ (is_Some (knowledge_used result) -> needs_help result = false).
Proof.
  cbv zeta.
  destruct run_cases as [(k & rest & Hs) | [(text & Hs & Hl & He)
    | [(text & Hs & Hl & He) | (e & Hs & Hl)]]].
  - rewrite (run_hit _ _ Hs). simpl. split; [|done].
    split; [done|]. by intros [? ?].
  - rewrite (run_escalate _ Hs Hl He). simpl. split; [|by intros [? ?]].
    split; [eauto|done].
  - rewrite (run_answer _ Hs Hl He). simpl. split; [|done].
    split; [done|]. by intros [? ?].
  - rewrite (run_failure _ Hs Hl). simpl. split; [|by intros [? ?]].
    split; [eauto|done].
Qed.

(** C10. A customer without history has an entry in the history map after
    the call, an empty list on the knowledge-hit path; the entries of all
    other customers are the same as before, on every path. *)
Theorem process_question_history_frame :
  (conversation_history self !! customer_id = None ->
     is_Some (conversation_history run.1.2 !! customer_id)
     /\ (search_knowledge question db <> [] ->
         conversation_history run.1.2 !! customer_id = Some []))
  /\ (forall c, c <> customer_id ->
        conversation_history run.1.2 !! c = conversation_history self !! c).
Proof.
  pose proof (init_history_lookup customer_id (conversation_history self)) as Hinit.
  destruct run_cases as [(k & rest & Hs) | [(text & Hs & Hl & He)
    | [(text & Hs & Hl & He) | (e & Hs & Hl)]]].
  - rewrite (run_hit _ _ Hs). simpl. split.
    + intros Hnone. rewrite Hinit. split; [eauto|].
      intros _. unfold turns_of. by rewrite Hnone.
    + intros c Hc. by apply init_history_lookup_ne.
  - rewrite (run_escalate _ Hs Hl He). simpl. unfold append_turns. split.
    + intros _. rewrite lookup_insert_eq. split; [eauto|done].
    + intros c Hc. rewrite lookup_insert_ne by done.
      by apply init_history_lookup_ne.
  - rewrite (run_answer _ Hs Hl He). simpl. unfold append_turns. split.
    + intros _. rewrite lookup_insert_eq. split; [eauto|done].
    + intros c Hc. rewrite lookup_insert_ne by done.
      by apply init_history_lookup_ne.
  - rewrite (run_failure _ Hs Hl). simpl. split.
    + intros _. rewrite Hinit. split; [eauto|done].
    + intros c Hc. by apply init_history_lookup_ne.
Qed.

(** C3, as the code has it. On the marker path the context stored with
    the new request holds the last three entries of the customer's list
    as it was before this call (all of them when there are fewer), each
    entry one message, together with the caller's context. *)
Theorem process_question_snapshot_window (text : string) :
  (forall e, e ∈ knowledge_collection db -> matches question e = false) ->
  llm (build_messages self customer_id question) = Reply text ->
  PyStr.startswith (PyStr.strip text) ESCALATE = true ->
  exists request window older,
    get_help_request auto_id run.2 = Some request
    /\ hr_context request = CtxSnapshot window (default [] context)
    /\ turns_of (conversation_history self) customer_id = older ++ window
    /\ length window
       = Nat.min 3 (length (turns_of (conversation_history self) customer_id)).
Proof.
  intros Hmiss%search_knowledge_nil Hl Hmark.
  rewrite (run_escalate _ Hmiss Hl Hmark). unfold get_help_request. simpl.
  destruct (PyStrFacts.last_n_suffix 3 (turns_of (conversation_history self) customer_id))
    as [older Hsplit].
  eexists _, _, older.
  split; [apply (doc_get_set hr_id (new_request _))|].
  split; [reflexivity|]. split; [exact Hsplit|].
  exact (PyStrFacts.last_n_length 3 _).
Qed.

End ProcessQuestion.

(** The hit of the spec's example, run on the sample store. *)
Lemma process_question_knowledge_hit_witness :
  exists before k after self' db',
    knowledge_collection Samples.db0 = before ++ k :: after
    /\ (forall x, x ∈ before -> matches "what are your hours" x = false)
    /\ matches "what are your hours" k = true
    /\ process_question Samples.llm_answers "req-1" 5000 "what are your hours" "bob"
         None None Samples.agent0 Samples.db0
       = ({| response := kb_answer k; needs_help := false;
             help_request_id := None; knowledge_used := Some (kb_id k) |},
          self', db')
    /\ knowledge_collection db' = before ++ incr_usage k :: after
    /\ kb_usage_count (incr_usage k) = (kb_usage_count k + 1)%Z
    /\ requests_collection db' = requests_collection Samples.db0
    /\ turns_of (conversation_history self') "bob"
       = turns_of (conversation_history Samples.agent0) "bob".
Proof.
  apply (process_question_knowledge_hit Samples.llm_answers "req-1" 5000
           "what are your hours" "bob" None None Samples.agent0 Samples.db0
           Samples.hours_entry).
  - unfold wf_collection. compute_done.
  - apply list_elem_of_further, list_elem_of_here.
  - reflexivity.
Defined.

(** The spec's marker example, run for a customer with five earlier pairs. *)
Lemma process_question_escalates_on_marker_witness :
  exists self' db' request,
    process_question Samples.llm_escalates "req-1" 5000 "Do you do balayage?" "alice"
      (Some "+15551234567") (Some [("call_id", "call-7")]) Samples.agent0 Samples.db0
    = ({| response := escalation_message; needs_help := true;
          help_request_id := Some "req-1"; knowledge_used := None |},
       self', db')
    /\ adds_one request (requests_collection Samples.db0) (requests_collection db')
    /\ hr_id request = "req-1"
    /\ hr_status request = PENDING
    /\ hr_question request = "Do you do balayage?"
    /\ knowledge_collection db' = knowledge_collection Samples.db0
    /\ turns_of (conversation_history self') "alice"
       = turns_of (conversation_history Samples.agent0) "alice"
         ++ [ mkMessage user "Do you do balayage?";
              mkMessage assistant escalation_message ].
Proof.
  apply (process_question_escalates_on_marker Samples.llm_escalates "req-1" 5000
           "Do you do balayage?" "alice" (Some "+15551234567")
           (Some [("call_id", "call-7")]) Samples.agent0 Samples.db0
           "[ESCALATE] unsure").
  - apply search_knowledge_nil. reflexivity.
  - reflexivity.
  - reflexivity.
  - compute_done.
Defined.

(** A timed-out model call, run on the sample store. *)
Lemma process_question_recovers_from_failure_witness :
  exists self' db' request,
    process_question Samples.llm_fails "req-2" 6000 "Do you do balayage?" "bob"
      None None Samples.agent0 Samples.db0
    = ({| response := trouble_message; needs_help := true;
          help_request_id := Some "req-2"; knowledge_used := None |},
       self', db')
    /\ adds_one request (requests_collection Samples.db0) (requests_collection db')
    /\ hr_id request = "req-2"
    /\ hr_status request = PENDING
    /\ hr_question request = "Do you do balayage?"
    /\ hr_context request = CtxError "Request timed out."
    /\ knowledge_collection db' = knowledge_collection Samples.db0.
Proof.
  apply (process_question_recovers_from_failure Samples.llm_fails "req-2" 6000
           "Do you do balayage?" "bob" None None Samples.agent0 Samples.db0
           "Request timed out.").
  - apply search_knowledge_nil. reflexivity.
  - reflexivity.
  - compute_done.
Defined.

(** A first call of [bob] that hits the knowledge base, with [alice] known. *)
Lemma process_question_history_frame_witness :
  conversation_history
    (process_question Samples.llm_answers "req-1" 5000 "what are your hours" "bob"
       None None Samples.agent0 Samples.db0).1.2 !! "bob" = Some []
  /\ conversation_history
       (process_question Samples.llm_answers "req-1" 5000 "what are your hours" "bob"
          None None Samples.agent0 Samples.db0).1.2 !! "alice"
     = conversation_history Samples.agent0 !! "alice".
Proof.
  destruct (process_question_history_frame Samples.llm_answers "req-1" 5000
              "what are your hours" "bob" None None Samples.agent0 Samples.db0)
    as [Hnew Hframe].
  split.
  - apply Hnew; [reflexivity | discriminate].
  - apply Hframe. discriminate.
Defined.

(** C3 fails as stated. [alice] has five pairs in her history; the model
    request carries the last five messages (from the answer of the third
    pair on) and the snapshot the last three, not five and three pairs. *)
Lemma context_window_counterexample :
  let turns := turns_of (conversation_history Samples.agent0) "alice" in
  let question := "Do you do balayage?" in
  let result :=
    process_question Samples.llm_escalates "req-1" 5000 question "alice"
      None None Samples.agent0 Samples.db0 in
  turns = Samples.turn "1" ++ Samples.turn "2" ++ Samples.turn "3"
          ++ Samples.turn "4" ++ Samples.turn "5"
  /\ build_messages Samples.agent0 "alice" question
     = [ mkMessage system (system_prompt Samples.agent0);
         mkMessage system ESCALATION_RULES ]
       ++ (mkMessage assistant "answer 3" :: Samples.turn "4" ++ Samples.turn "5")
       ++ [ mkMessage user question ]
  /\ build_messages Samples.agent0 "alice" question
     <> [ mkMessage system (system_prompt Samples.agent0);
          mkMessage system ESCALATION_RULES ]
        ++ spec_last_turn_pairs 5 turns ++ [ mkMessage user question ]
  /\ hr_context <$> requests_collection result.2
     = [ CtxSnapshot (mkMessage assistant "answer 4" :: Samples.turn "5") [] ]
  /\ hr_context <$> requests_collection result.2
     <> [ CtxSnapshot (spec_last_turn_pairs 3 turns) [] ].
Proof.
  cbv zeta. split_and!; [reflexivity | reflexivity | discriminate
                        | reflexivity | discriminate].
Qed.

(** The spec's marker example: the snapshot of [alice]'s request. *)
Lemma process_question_snapshot_window_witness :
  exists request window older,
    get_help_request "req-1"
      (process_question Samples.llm_escalates "req-1" 5000 "Do you do balayage?" "alice"
         None (Some [("call_id", "call-7")]) Samples.agent0 Samples.db0).2
    = Some request
    /\ hr_context request = CtxSnapshot window (default [] (Some [("call_id", "call-7")]))
    /\ turns_of (conversation_history Samples.agent0) "alice" = older ++ window
    /\ length window
       = Nat.min 3 (length (turns_of (conversation_history Samples.agent0) "alice")).
Proof.
  apply (process_question_snapshot_window Samples.llm_escalates "req-1" 5000
           "Do you do balayage?" "alice" None (Some [("call_id", "call-7")])
           Samples.agent0 Samples.db0 "[ESCALATE] unsure").
  - apply search_knowledge_nil. reflexivity.
  - reflexivity.
  - reflexivity.
Defined.

(* ===================================================================== *)
(** ** Supervisor resolution: [handle_supervisor_response] *)
(* ===================================================================== *)

Section SupervisorResponse.
Variables (auto_id : string) (ts : Z).
Variables (request_id supervisor_answer supervisor_id : string).
Variables (self : AIAgent) (db : FirebaseDatabase).

Local Abbreviation resolve :=
  (handle_supervisor_response auto_id ts request_id supervisor_answer supervisor_id
     self db).

(** The entry written for [request]. *)
Local Abbreviation learned_entry request :=
  (knowledge_data auto_id ts (hr_question request) supervisor_answer "supervisor"
     (Some ["learned"; "supervisor_response"])).

Lemma resolve_missing :
  get_help_request request_id db = None -> resolve = (false, self, db).
Proof. intros H. unfold handle_supervisor_response. by rewrite H. Qed.

(** What the call does to a request that exists; its status is not read. *)
Lemma resolve_found (request : HelpRequest) :
  get_help_request request_id db = Some request ->
  exists before after,
    requests_collection db = before ++ (request :: after)
    /\ (request_id ∉ ids hr_id before)
    /\ resolve
       = (true,
          follow_up_with_customer (hr_customer_id request) (hr_customer_phone request)
            (hr_question request) supervisor_answer self,
          {| requests_collection :=
               before
               ++ (set_supervisor_fields supervisor_answer supervisor_id RESOLVED ts
                     request :: after);
             knowledge_collection :=
               doc_set kb_id (learned_entry request) (knowledge_collection db) |}).
Proof.
  intros Hget. unfold handle_supervisor_response. rewrite Hget.
  apply doc_get_split in Hget as (before & after & Hsplit & Hid & Hfresh).
  exists before, after. split_and!; [done..|].
  unfold update_help_request. rewrite Hsplit.
  by rewrite (doc_update_first hr_id request_id).
Qed.

(** C8. Resolution and learning: resolving a Pending request returns
    success; the request is then Resolved with [resolved_at],
    [supervisor_answer] and [supervisor_id] set, and the knowledge base
    is the old one, every entry as it was, with exactly one new entry
    added: the request's question, the supervisor's answer, source
    [supervisor] and the tags [learned] and [supervisor_response]. *)
Theorem handle_supervisor_response_learns (request : HelpRequest) :
  get_help_request request_id db = Some request ->
  hr_status request = PENDING ->
  auto_id ∉ ids kb_id (knowledge_collection db) ->
  exists self' db' resolved entry,
    resolve = (true, self', db')
    /\ get_help_request request_id db' = Some resolved
    /\ hr_status resolved = RESOLVED
    /\ hr_resolved_at resolved = Some ts
    /\ hr_supervisor_answer resolved = Some supervisor_answer
    /\ hr_supervisor_id resolved = Some supervisor_id
    /\ hr_question resolved = hr_question request
    /\ adds_one entry (knowledge_collection db) (knowledge_collection db')
    /\ kb_question entry = hr_question request
    /\ kb_answer entry = supervisor_answer
    /\ kb_source entry = "supervisor"
    /\ kb_tags entry = ["learned"; "supervisor_response"].
Proof.
  intros Hget _ Hfresh.
  destruct (resolve_found request Hget) as (before & after & Hsplit & Hid & ->).
  do 4 eexists. split; [done|]. unfold get_help_request. simpl.
  split.
  { apply (doc_get_first hr_id request_id); [|done].
    simpl. by apply doc_get_split in Hget as (? & ? & _ & ? & _). }
  do 5 (split; [done|]).
  split; [by apply (doc_set_adds_one kb_id (learned_entry request))|done].
Qed.

(** C1, as the code has it. The status of the request is not checked: a
    call on a request that exists, whatever its status, returns success,
    overwrites status, [resolved_at], [supervisor_answer] and
    [supervisor_id] and adds one knowledge entry. The call fails only for
    a request that does not exist, and then changes nothing. *)
Theorem handle_supervisor_response_any_status :
  auto_id ∉ ids kb_id (knowledge_collection db) ->
  match get_help_request request_id db with
  | Some request =>
      exists self' db',
        resolve = (true, self', db')
        /\ get_help_request request_id db'
           = Some (set_supervisor_fields supervisor_answer supervisor_id RESOLVED ts
                     request)
        /\ adds_one (learned_entry request) (knowledge_collection db)
             (knowledge_collection db')
  | None => resolve = (false, self, db)
  end.
Proof.
  intros Hfresh.
  destruct (get_help_request request_id db) as [request|] eqn:Hget;
    [|by apply resolve_missing].
  destruct (resolve_found request Hget) as (before & after & Hsplit & Hid & ->).
  do 2 eexists. split; [done|]. unfold get_help_request. simpl. split.
  - apply (doc_get_first hr_id request_id); [|done].
    simpl. by apply doc_get_split in Hget as (? & ? & _ & ? & _).
  - by apply (doc_set_adds_one kb_id (learned_entry request)).
Qed.

End SupervisorResponse.

Example sample_first_resolution :
  (handle_supervisor_response "kb-learned-1" 7000 "req-1" "X" "supervisor_1"
     Samples.agent0 ResolutionSamples.db_pending).2
  = ResolutionSamples.db_resolved.
Proof. reflexivity. Qed.

(** The spec's resolution example. *)
Lemma handle_supervisor_response_learns_witness :
  exists self' db' resolved entry,
    handle_supervisor_response "kb-learned-1" 7000 "req-1" "X" "supervisor_1"
      Samples.agent0 ResolutionSamples.db_pending
    = (true, self', db')
    /\ get_help_request "req-1" db' = Some resolved
    /\ hr_status resolved = RESOLVED
    /\ hr_resolved_at resolved = Some 7000%Z
    /\ hr_supervisor_answer resolved = Some "X"
    /\ hr_supervisor_id resolved = Some "supervisor_1"
    /\ hr_question resolved = hr_question ResolutionSamples.pending_request
    /\ adds_one entry (knowledge_collection ResolutionSamples.db_pending)
         (knowledge_collection db')
    /\ kb_question entry = hr_question ResolutionSamples.pending_request
    /\ kb_answer entry = "X"
    /\ kb_source entry = "supervisor"
    /\ kb_tags entry = ["learned"; "supervisor_response"].
Proof.
  apply (handle_supervisor_response_learns "kb-learned-1" 7000 "req-1" "X" "supervisor_1"
           Samples.agent0 ResolutionSamples.db_pending ResolutionSamples.pending_request).
  - reflexivity.
  - reflexivity.
  - compute_done.
Defined.

(** C1 fails as stated: a second resolution of a Resolved request succeeds,
    replaces the stored answer, supervisor and time, and adds a second
    knowledge entry. *)
Lemma double_resolution_counterexample :
  let db := ResolutionSamples.db_resolved in
  let result :=
    handle_supervisor_response "kb-learned-2" 9000 "req-1" "Y" "supervisor_2"
      Samples.agent0 db in
  (hr_status <$> get_help_request "req-1" db) = Some RESOLVED
  /\ result.1.1 = true
  /\ (hr_supervisor_answer <$> get_help_request "req-1" db) = Some (Some "X")
  /\ (hr_supervisor_answer <$> get_help_request "req-1" result.2) = Some (Some "Y")
  /\ (hr_resolved_at <$> get_help_request "req-1" result.2) = Some (Some 9000%Z)
  /\ requests_collection result.2 <> requests_collection db
  /\ length (knowledge_collection result.2) = S (length (knowledge_collection db)).
Proof.
  cbv zeta. split_and!; [reflexivity..|discriminate|reflexivity].
Qed.

(** A second resolution and a resolution of an unknown id. *)
Lemma handle_supervisor_response_any_status_witness :
  (exists self' db',
     handle_supervisor_response "kb-learned-2" 9000 "req-1" "Y" "supervisor_2"
       Samples.agent0 ResolutionSamples.db_resolved
     = (true, self', db')
     /\ get_help_request "req-1" db'
        = Some (set_supervisor_fields "Y" "supervisor_2" RESOLVED 9000
                  ResolutionSamples.resolved_request)
     /\ adds_one
          (knowledge_data "kb-learned-2" 9000
             (hr_question ResolutionSamples.resolved_request) "Y" "supervisor"
             (Some ["learned"; "supervisor_response"]))
          (knowledge_collection ResolutionSamples.db_resolved)
          (knowledge_collection db'))
  /\ handle_supervisor_response "kb-learned-2" 9000 "req-404" "Y" "supervisor_2"
       Samples.agent0 ResolutionSamples.db_resolved
     = (false, Samples.agent0, ResolutionSamples.db_resolved).
Proof.
  split.
  - apply (handle_supervisor_response_any_status "kb-learned-2" 9000 "req-1" "Y"
             "supervisor_2" Samples.agent0 ResolutionSamples.db_resolved).
    compute_done.
  - apply (handle_supervisor_response_any_status "kb-learned-2" 9000 "req-404" "Y"
             "supervisor_2" Samples.agent0 ResolutionSamples.db_resolved).
    compute_done.
Defined.

(* ===================================================================== *)
(** ** The timeout sweep: [check_old_requests] *)
(* ===================================================================== *)

Lemma insert_desc_perm (r : HelpRequest) (l : list HelpRequest) :
  Firestore.insert_desc r l ≡ₚ r :: l.
Proof.
  induction l as [|x l IH]; simpl; [done|].
  destruct (Firestore.created_desc r x); [done|].
  rewrite IH. apply Permutation_swap.
Qed.

Lemma order_by_created_at_desc_perm (l : list HelpRequest) :
  Firestore.order_by_created_at_desc l ≡ₚ l.
Proof.
  unfold Firestore.order_by_created_at_desc.
  induction l as [|x l IH]; simpl; [done|].
  by rewrite insert_desc_perm, IH.
Qed.

(** The pending query returns the Pending documents of the collection. *)
Lemma elem_of_get_pending_requests (db : FirebaseDatabase) (r : HelpRequest) :
  r ∈ get_pending_requests db
  <-> hr_status r = PENDING /\ r ∈ requests_collection db.
Proof.
  unfold get_pending_requests.
  rewrite order_by_created_at_desc_perm. by rewrite list_elem_of_filter.
Qed.

Lemma set_unresolved_id (ts : Z) (r : HelpRequest) :
  hr_id (set_unresolved ts r) = hr_id r.
Proof. done. Qed.

(** What is read at [i] after [mark_request_unresolved] of [j]. *)
Lemma get_after_mark (i j : string) (ts : Z) (db : FirebaseDatabase) :
  get_help_request i (mark_request_unresolved j ts db).2
  = if decide (i = j) then set_unresolved ts <$> get_help_request i db
    else get_help_request i db.
Proof.
  unfold mark_request_unresolved, get_help_request.
  destruct (doc_update hr_id j (set_unresolved ts) (requests_collection db))
    as [c'|] eqn:Hu; simpl.
  - case_decide as Hij.
    + subst j. by apply doc_get_update_eq.
    + by apply (doc_get_update_ne hr_id i j (set_unresolved ts)).
  - case_decide as Hij; [|done]. subst j.
    destruct (doc_get hr_id i (requests_collection db)) as [d|] eqn:Hg; [|done].
    apply doc_get_split in Hg as (before & after & Hsplit & Hid & Hfresh).
    rewrite Hsplit in Hu. by rewrite (doc_update_first hr_id i) in Hu.
Qed.

Lemma knowledge_after_mark (j : string) (ts : Z) (db : FirebaseDatabase) :
  knowledge_collection (mark_request_unresolved j ts db).2 = knowledge_collection db.
Proof.
  unfold mark_request_unresolved. by destruct (doc_update _ _ _ _).
Qed.

Section Sweep.
Variable parse_iso : string -> option Z.
Variables (timeout_threshold ts : Z).

(** The loop only writes documents whose id is in the list it walks. *)
Lemma check_loop_frame (i : string) (l : list HelpRequest) (db : FirebaseDatabase) :
  i ∉ ids hr_id l ->
  get_help_request i (check_loop parse_iso timeout_threshold ts l db)
  = get_help_request i db.
Proof.
  unfold ids. revert db. induction l as [|r l IH]; intros db Hi; simpl; [done|].
  destruct (fromisoformat parse_iso (hr_created_at r)) as [created_at|]; [|done].
  rewrite IH by set_solver.
  destruct (created_at <? timeout_threshold)%Z; [|done].
  rewrite get_after_mark. rewrite decide_False; [done|set_solver].
Qed.

(** A datetime object at the head of the list ends the loop at once. *)
Lemma check_loop_datetime (r : HelpRequest) (l : list HelpRequest)
    (db : FirebaseDatabase) (t : Z) :
  hr_created_at r = PyDatetime t ->
  check_loop parse_iso timeout_threshold ts (r :: l) db = db.
Proof. intros H. simpl. by rewrite H. Qed.


End Sweep.

Lemma wf_collection_inj {D} (key : D -> string) (c : list D) (x y : D) :
  wf_collection key c -> x ∈ c -> y ∈ c -> key x = key y -> x = y.
Proof.
  intros Hwf Hx Hy Hk.
  pose proof (doc_get_elem key c x Hwf Hx) as Hgx.
  pose proof (doc_get_elem key c y Hwf Hy) as Hgy.
  rewrite Hk in Hgx. congruence.
Qed.


(** A request that is not Pending has an id that no Pending request has. *)
Lemma terminal_not_pending_id (db : FirebaseDatabase) (request : HelpRequest) :
  wf_collection hr_id (requests_collection db) ->
  request ∈ requests_collection db ->
  hr_status request <> PENDING ->
  hr_id request ∉ ids hr_id (get_pending_requests db).
Proof.
  intros Hwf Hin Hstatus (r & Hid & [Hp Hr]%elem_of_get_pending_requests)%list_elem_of_fmap.
  assert (request = r) as -> by eauto using wf_collection_inj.
  done.
Qed.

Section SweepTick.
Variable parse_iso : string -> option Z.
Variable self : RequestScheduler.
Variables (now ts : Z).
Variable db : FirebaseDatabase.

Local Abbreviation tick := (check_old_requests parse_iso self now ts db).

(** A tick over a store whose Pending requests carry the datetime objects
    that [SERVER_TIMESTAMP] reads back as changes nothing. *)
Lemma check_old_requests_datetime :
  (forall r, r ∈ requests_collection db -> hr_status r = PENDING ->
             exists t, hr_created_at r = PyDatetime t) ->
  tick = db.
Proof.
  intros Hdates. unfold check_old_requests.
  destruct (get_pending_requests db) as [|r l] eqn:Hp; [done|].
  assert (r ∈ get_pending_requests db) as [Hs Hr]%elem_of_get_pending_requests.
  { rewrite Hp. left. }
  destruct (Hdates r Hr Hs) as [t Ht].
  by apply (check_loop_datetime _ _ _ _ _ _ t).
Qed.


(** C2, as the code has it. [mark_request_unresolved] does not read the
    status: on a request that exists, whatever its status, it reports
    success and sets the status to Unresolved and [resolved_at], leaving
    every other request as it was. Within a tick it is only called for
    requests returned by the pending query of that tick, so a request that
    is already Resolved or Unresolved when the tick starts is left
    unchanged. *)
Theorem sweep_update_unconditional :
  wf_collection hr_id (requests_collection db) ->
  (forall request_id request,
      get_help_request request_id db = Some request ->
      (mark_request_unresolved request_id ts db).1 = true
      /\ get_help_request request_id (mark_request_unresolved request_id ts db).2
         = Some (set_unresolved ts request)
      /\ forall other, other <> request_id ->
           get_help_request other (mark_request_unresolved request_id ts db).2
           = get_help_request other db)
  /\ (forall request,
        request ∈ requests_collection db ->
        hr_status request <> PENDING ->
        get_help_request (hr_id request) tick = Some request).
Proof.
  intros Hwf. split.
  - intros request_id request Hget. split_and!.
    + unfold mark_request_unresolved.
      pose proof Hget as (before & after & Hsplit & Hid & Hfresh)%doc_get_split.
      rewrite Hsplit. by rewrite (doc_update_first hr_id request_id).
    + rewrite get_after_mark, decide_True by done. by rewrite Hget.
    + intros other Hne. by rewrite get_after_mark, decide_False.
  - intros request Hin Hstatus. unfold check_old_requests.
    rewrite check_loop_frame by (by apply terminal_not_pending_id).
    by apply (doc_get_elem hr_id).
Qed.

End SweepTick.

(* ===================================================================== *)
(** ** Creation dates in the stores this code writes *)
(* ===================================================================== *)

Lemma server_dates_empty (kb : list KnowledgeBase) :
  server_dates {| requests_collection := []; knowledge_collection := kb |}.
Proof. intros r Hr. by apply elem_of_nil in Hr. Qed.

Lemma server_dates_same_requests (db db' : FirebaseDatabase) :
  requests_collection db' = requests_collection db ->
  server_dates db -> server_dates db'.
Proof. intros Heq Hd r. rewrite Heq. apply Hd. Qed.

Lemma server_dates_create auto_id ts question customer_id customer_phone context db :
  server_dates db ->
  server_dates
    (create_help_request auto_id ts question customer_id customer_phone context db).2.
Proof.
  intros Hd r [->|Hr]%elem_of_doc_set; [by exists ts|by apply Hd].
Qed.

Lemma server_dates_update request_id supervisor_answer supervisor_id status ts db :
  server_dates db ->
  server_dates
    (update_help_request request_id supervisor_answer supervisor_id status ts db).2.
Proof.
  intros Hd. unfold update_help_request.
  destruct (doc_update _ _ _ _) as [c'|] eqn:Hu; [|done].
  intros r Hr. simpl in Hr.
  destruct (elem_of_doc_update _ _ _ _ _ _ Hu Hr) as [?|(d & Hin & ->)]; [by apply Hd|].
  exact (Hd d Hin).
Qed.

Lemma server_dates_mark request_id ts db :
  server_dates db -> server_dates (mark_request_unresolved request_id ts db).2.
Proof.
  intros Hd. unfold mark_request_unresolved.
  destruct (doc_update _ _ _ _) as [c'|] eqn:Hu; [|done].
  intros r Hr. simpl in Hr.
  destruct (elem_of_doc_update _ _ _ _ _ _ Hu Hr) as [?|(d & Hin & ->)]; [by apply Hd|].
  exact (Hd d Hin).
Qed.

Lemma server_dates_process_question llm auto_id ts question customer_id
    customer_phone context self db :
  server_dates db ->
  server_dates
    (process_question llm auto_id ts question customer_id customer_phone context
       self db).2.
Proof.
  intros Hd.
  destruct (run_cases llm question customer_id self db)
    as [(k & rest & Hs) | [(text & Hs & Hl & He)
      | [(text & Hs & Hl & He) | (e & Hs & Hl)]]].
  - rewrite (run_hit _ _ _ _ _ _ _ _ _ _ _ Hs). simpl.
    apply (server_dates_same_requests db); [|done].
    unfold increment_knowledge_usage. by destruct (doc_update _ _ _ _).
  - rewrite (run_escalate _ _ _ _ _ _ _ _ _ _ Hs Hl He).
    by apply (server_dates_create auto_id ts question customer_id customer_phone
                (Some _) db).
  - by rewrite (run_answer _ _ _ _ _ _ _ _ _ _ Hs Hl He).
  - rewrite (run_failure _ _ _ _ _ _ _ _ _ _ Hs Hl).
    by apply (server_dates_create auto_id ts question customer_id customer_phone
                (Some _) db).
Qed.

Lemma server_dates_handle_supervisor_response auto_id ts request_id
    supervisor_answer supervisor_id self db :
  server_dates db ->
  server_dates
    (handle_supervisor_response auto_id ts request_id supervisor_answer supervisor_id
       self db).2.
Proof.
  intros Hd. unfold handle_supervisor_response.
  destruct (get_help_request request_id db); [|done].
  pose proof (server_dates_update request_id supervisor_answer supervisor_id
                RESOLVED ts db Hd) as Hu.
  destruct (update_help_request _ _ _ _ _ _) as [ok db1]. simpl in *.
  by apply (server_dates_same_requests db1).
Qed.

(** On every store written by this code alone, a tick of the sweep marks
    nothing. *)
Lemma check_old_requests_server_dates parse_iso self now ts db :
  server_dates db -> check_old_requests parse_iso self now ts db = db.
Proof. intros Hd. apply check_old_requests_datetime. intros r Hr _. by apply Hd. Qed.

(** C7 on the code. A store holds a Pending request created three days
    before the sweep by [create_help_request]; the scheduler has a timeout
    of two days. The pending query returns the request, the date read from
    it is a datetime object, [fromisoformat] raises on it and the tick ends
    with the store unchanged: the request is still Pending. *)
Theorem sweep_misses_stale_request (parse_iso : string -> option Z) :
  let db := SweepSamples.db in
  let after := check_old_requests parse_iso scheduler SweepSamples.now SweepSamples.now db in
  timeout_days scheduler = 2%Z
  /\ hr_id <$> get_pending_requests db = ["req-new"; "req-old"]
  /\ hr_created_at <$> get_help_request "req-old" db
     = Some (PyDatetime (SweepSamples.now - timedelta_days 3))
  /\ after = db
  /\ hr_status <$> get_help_request "req-old" after = Some PENDING
  /\ hr_resolved_at <$> get_help_request "req-old" after = Some None.
Proof. cbv zeta. split_and!; reflexivity. Qed.

(** With the dates as text the same tick marks the old request only. *)
Example sample_sweep_text :
  let after :=
    check_old_requests SweepSamples.parse_two scheduler SweepSamples.now 9000
      SweepSamples.text_db in
  hr_status <$> get_help_request "req-old" after = Some UNRESOLVED
  /\ hr_resolved_at <$> get_help_request "req-old" after = Some (Some 9000%Z)
  /\ hr_status <$> get_help_request "req-new" after = Some PENDING.
Proof. cbv zeta. split_and!; reflexivity. Qed.

(** C2 fails as stated: the update of the sweep, applied to a request that
    is already Resolved, reports success and overwrites its status and its
    resolution time. *)
Lemma sweep_update_counterexample :
  let db := ResolutionSamples.db_resolved in
  let result := mark_request_unresolved "req-1" 9000 db in
  hr_status <$> get_help_request "req-1" db = Some RESOLVED
  /\ hr_resolved_at <$> get_help_request "req-1" db = Some (Some 7000%Z)
  /\ result.1 = true
  /\ hr_status <$> get_help_request "req-1" result.2 = Some UNRESOLVED
  /\ hr_resolved_at <$> get_help_request "req-1" result.2 = Some (Some 9000%Z)
  /\ hr_supervisor_answer <$> get_help_request "req-1" result.2 = Some (Some "X")
  /\ requests_collection result.2 <> requests_collection db.
Proof. cbv zeta. split_and!; [reflexivity..|discriminate]. Qed.

(** The update on a Resolved request, and a tick over the store holding it. *)
Lemma sweep_update_unconditional_witness :
  ((mark_request_unresolved "req-1" 9000 ResolutionSamples.db_resolved).1 = true
   /\ get_help_request "req-1"
        (mark_request_unresolved "req-1" 9000 ResolutionSamples.db_resolved).2
      = Some (set_unresolved 9000 ResolutionSamples.resolved_request)
   /\ forall other, other <> "req-1" ->
        get_help_request other
          (mark_request_unresolved "req-1" 9000 ResolutionSamples.db_resolved).2
        = get_help_request other ResolutionSamples.db_resolved)
  /\ get_help_request "req-1"
       (check_old_requests SweepSamples.parse_two scheduler SweepSamples.now 9000
          ResolutionSamples.db_resolved)
     = Some ResolutionSamples.resolved_request.
Proof.
  destruct (sweep_update_unconditional SweepSamples.parse_two scheduler
              SweepSamples.now 9000 ResolutionSamples.db_resolved)
    as [Hmark Htick].
  - unfold wf_collection. compute_done.
  - split.
    + apply Hmark. reflexivity.
    + apply (Htick ResolutionSamples.resolved_request).
      * apply list_elem_of_here.
      * discriminate.
Defined.

(* ===================================================================== *)
(** ** Unique document ids are kept by every operation *)
(* ===================================================================== *)

Lemma wf_db_create auto_id ts question customer_id customer_phone context db :
  wf_db db ->
  wf_db (create_help_request auto_id ts question customer_id customer_phone context db).2.
Proof. intros [Hr Hk]. split; [by apply doc_set_wf|done]. Qed.

Lemma wf_db_add_knowledge auto_id ts question answer source tags db :
  wf_db db -> wf_db (add_knowledge auto_id ts question answer source tags db).2.
Proof. intros [Hr Hk]. split; [done|by apply doc_set_wf]. Qed.

Lemma wf_db_update request_id supervisor_answer supervisor_id status ts db :
  wf_db db ->
  wf_db (update_help_request request_id supervisor_answer supervisor_id status ts db).2.
Proof.
  intros [Hr Hk]. unfold update_help_request.
  destruct (doc_update _ _ _ _) as [c'|] eqn:Hu; [|done].
  split; [|done]. unfold wf_collection. simpl.
  erewrite (doc_update_ids hr_id); [done| |exact Hu]. done.
Qed.

Lemma wf_db_mark request_id ts db :
  wf_db db -> wf_db (mark_request_unresolved request_id ts db).2.
Proof.
  intros [Hr Hk]. unfold mark_request_unresolved.
  destruct (doc_update _ _ _ _) as [c'|] eqn:Hu; [|done].
  split; [|done]. unfold wf_collection. simpl.
  erewrite (doc_update_ids hr_id); [done| |exact Hu]. done.
Qed.

Lemma wf_db_increment knowledge_id db :
  wf_db db -> wf_db (increment_knowledge_usage knowledge_id db).2.
Proof.
  intros [Hr Hk]. unfold increment_knowledge_usage.
  destruct (doc_update _ _ _ _) as [c'|] eqn:Hu; [|done].
  split; [done|]. unfold wf_collection. simpl.
  erewrite (doc_update_ids kb_id); [done| |exact Hu]. done.
Qed.

Lemma wf_db_process_question llm auto_id ts question customer_id customer_phone
    context self db :
  wf_db db ->
  wf_db (process_question llm auto_id ts question customer_id customer_phone context
           self db).2.
Proof.
  intros Hwf.
  destruct (run_cases llm question customer_id self db)
    as [(k & rest & Hs) | [(text & Hs & Hl & He)
      | [(text & Hs & Hl & He) | (e & Hs & Hl)]]].
  - rewrite (run_hit _ _ _ _ _ _ _ _ _ _ _ Hs). by apply wf_db_increment.
  - rewrite (run_escalate _ _ _ _ _ _ _ _ _ _ Hs Hl He).
    by apply (wf_db_create auto_id ts question customer_id customer_phone (Some _) db).
  - by rewrite (run_answer _ _ _ _ _ _ _ _ _ _ Hs Hl He).
  - rewrite (run_failure _ _ _ _ _ _ _ _ _ _ Hs Hl).
    by apply (wf_db_create auto_id ts question customer_id customer_phone (Some _) db).
Qed.

Lemma wf_db_handle_supervisor_response auto_id ts request_id supervisor_answer
    supervisor_id self db :
  wf_db db ->
  wf_db (handle_supervisor_response auto_id ts request_id supervisor_answer
           supervisor_id self db).2.
Proof.
  intros Hwf. unfold handle_supervisor_response.
  destruct (get_help_request request_id db); [|done].
  pose proof (wf_db_update request_id supervisor_answer supervisor_id RESOLVED ts db Hwf)
    as Hu.
  destruct (update_help_request _ _ _ _ _ _) as [ok db1]. simpl in *.
  by apply (wf_db_add_knowledge auto_id ts _ _ _ _ db1).
Qed.

Lemma wf_db_check_old_requests parse_iso self now ts db :
  wf_db db -> wf_db (check_old_requests parse_iso self now ts db).
Proof.
  unfold check_old_requests. generalize (get_pending_requests db) as l.
  intros l. revert db. induction l as [|r l IH]; intros db Hwf; simpl; [done|].
  destruct (fromisoformat parse_iso (hr_created_at r)) as [created_at|]; [|done].
  apply IH. destruct (created_at <? _)%Z; [by apply wf_db_mark|done].
Qed.

(* ===================================================================== *)
(** ** Further properties of the store *)
(* ===================================================================== *)

Section MoreCollectionFacts.
Context {D : Type} (key : D -> string).

Lemma doc_get_set_ne (i : string) (data : D) (c : list D) :
  key data <> i -> doc_get key i (doc_set key data c) = doc_get key i c.
Proof.
  intros Hne. induction c as [|x c IH]; simpl.
  - by rewrite decide_False.
  - destruct (decide (key x = key data)) as [Hx|Hx]; simpl.
    + rewrite !decide_False by congruence. done.
    + case_decide; [done|]. apply IH.
Qed.

Lemma elem_of_doc_set_self (data : D) (c : list D) :
  data ∈ doc_set key data c.
Proof.
  induction c as [|x c IH]; simpl; [left|].
  case_decide; [left|by right].
Qed.

Lemma doc_update_is_Some (i : string) (f : D -> D) (c : list D) :
  is_Some (doc_update key i f c) <-> i ∈ ids key c.
Proof.
  unfold ids. induction c as [|x c IH]; simpl.
  - split; [by intros [? ?]|by intros ?%elem_of_nil].
  - case_decide as Hx.
    + split; [intros _; subst; left|eauto].
    + rewrite elem_of_cons, <- IH.
      destruct (doc_update key i f c); simpl.
      * split; eauto.
      * split; [by intros [? ?]|]. intros [?|[? ?]]; [congruence|done].
Qed.

Lemma doc_get_is_Some (i : string) (c : list D) :
  is_Some (doc_get key i c) <-> i ∈ ids key c.
Proof.
  destruct (doc_get key i c) as [d|] eqn:Hg.
  - split; [intros _|eauto].
    destruct (decide (i ∈ ids key c)) as [|Hn]; [done|].
    apply doc_get_None in Hn. congruence.
  - split; [by intros [? ?]|]. intros Hin. by apply doc_get_None in Hg.
Qed.

Lemma doc_get_dict_del (i j : string) (c : list D) :
  doc_get key i (dict_del key j c)
  = if decide (i = j) then None else doc_get key i c.
Proof.
  unfold dict_del. induction c as [|x c IH]; simpl; [by case_decide|].
  destruct (decide (key x = j)) as [Hx|Hx].
  - rewrite filter_cons_False by (intros ?; done). rewrite IH.
    case_decide; [done|]. rewrite decide_False by congruence. done.
  - rewrite filter_cons_True by done. simpl. rewrite IH.
    case_decide as Hxi; [|done]. rewrite decide_False by congruence. done.
Qed.

End MoreCollectionFacts.

(** X1. A request written by [create_help_request] is read back under the
    returned id: Pending, with the given question and customer and no
    resolution fields; it is in the pending list; every other id reads as
    before and the knowledge base is untouched.  An id that was already in
    use is overwritten by the new request. *)
Theorem create_help_request_read_back (auto_id : string) (ts : Z)
    (question customer_id : string) (customer_phone : option string)
    (context : option RequestContext) (db : FirebaseDatabase) :
  let created :=
    create_help_request auto_id ts question customer_id customer_phone context db in
  exists request,
    get_help_request created.1 created.2 = Some request
    /\ hr_status request = PENDING
    /\ hr_question request = question
    /\ hr_customer_id request = customer_id
    /\ hr_customer_phone request = customer_phone
    /\ hr_resolved_at request = None
    /\ hr_supervisor_answer request = None
    /\ hr_supervisor_id request = None
    /\ request ∈ get_pending_requests created.2
    /\ knowledge_collection created.2 = knowledge_collection db
    /\ forall other, other <> created.1 ->
         get_help_request other created.2 = get_help_request other db.
Proof.
  cbv zeta. unfold create_help_request, get_help_request. simpl.
  eexists. split; [apply (doc_get_set hr_id (request_data _ _ _ _ _ _))|].
  do 7 (split; [done|]). split_and!; [|done|].
  - apply elem_of_get_pending_requests. split; [done|]. simpl.
    apply elem_of_doc_set_self.
  - intros other Hne. by apply doc_get_set_ne.
Qed.

(** X2. An update aimed at a document that does not exist reports failure
    and changes nothing: [update_help_request] and
    [mark_request_unresolved] for an unknown request id,
    [increment_knowledge_usage] and [update_knowledge] for an unknown
    knowledge id. *)
Theorem updates_of_unknown_ids_fail (request_id knowledge_id : string)
    (supervisor_answer supervisor_id answer : string) (status : RequestStatus)
    (ts : Z) (db : FirebaseDatabase) :
  request_id ∉ ids hr_id (requests_collection db) ->
  knowledge_id ∉ ids kb_id (knowledge_collection db) ->
  update_help_request request_id supervisor_answer supervisor_id status ts db
  = (false, db)
  /\ mark_request_unresolved request_id ts db = (false, db)
  /\ increment_knowledge_usage knowledge_id db = (false, db)
  /\ update_knowledge knowledge_id answer ts db = (false, db).
Proof.
  intros Hr%doc_get_None Hk%doc_get_None.
  unfold update_help_request, mark_request_unresolved,
    increment_knowledge_usage, update_knowledge.
  by rewrite !(doc_update_None hr_id) , !(doc_update_None kb_id).
Qed.

Lemma updates_of_unknown_ids_fail_witness :
  update_help_request "req-404" "X" "supervisor_1" RESOLVED 9000
    ResolutionSamples.db_pending
  = (false, ResolutionSamples.db_pending)
  /\ mark_request_unresolved "req-404" 9000 ResolutionSamples.db_pending
     = (false, ResolutionSamples.db_pending)
  /\ increment_knowledge_usage "kb-404" ResolutionSamples.db_pending
     = (false, ResolutionSamples.db_pending)
  /\ update_knowledge "kb-404" "Y" 9000 ResolutionSamples.db_pending
     = (false, ResolutionSamples.db_pending).
Proof.
  apply (updates_of_unknown_ids_fail "req-404" "kb-404" "X" "supervisor_1" "Y"
           RESOLVED 9000 ResolutionSamples.db_pending).
  - compute_done.
  - compute_done.
Defined.

Lemma created_desc_total (a b : HelpRequest) :
  Firestore.created_desc a b = false -> Firestore.created_desc b a = true.
Proof.
  unfold Firestore.created_desc.
  assert (Firestore.value_compare (hr_created_at b) (hr_created_at a)
          = CompOpp (Firestore.value_compare (hr_created_at a) (hr_created_at b))) as ->.
  { destruct (hr_created_at a), (hr_created_at b); simpl; try done.
    - apply Z.compare_antisym.
    - apply String.compare_antisym. }
  destruct (Firestore.value_compare _ _); simpl; try done.
  intros H. destruct (String.leb_total (hr_id a) (hr_id b)); congruence.
Qed.

Lemma insert_desc_sorted (r : HelpRequest) (l : list HelpRequest) :
  Sorted (fun a b => Firestore.created_desc a b = true) l ->
  Sorted (fun a b => Firestore.created_desc a b = true) (Firestore.insert_desc r l).
Proof.
  induction l as [|x l IH]; simpl; intros Hs.
  - by repeat constructor.
  - destruct (Firestore.created_desc r x) eqn:Hrx.
    + constructor; [done|]. by constructor.
    + apply Sorted_inv in Hs as [Hs Hhd]. constructor; [by apply IH|].
      destruct l as [|y l]; simpl.
      * constructor. by apply created_desc_total.
      * destruct (Firestore.created_desc r y).
        -- constructor. by apply created_desc_total.
        -- constructor. by inversion Hhd.
Qed.

Lemma order_by_created_at_desc_sorted (l : list HelpRequest) :
  Sorted (fun a b => Firestore.created_desc a b = true)
    (Firestore.order_by_created_at_desc l).
Proof.
  unfold Firestore.order_by_created_at_desc.
  induction l as [|x l IH]; simpl; [constructor|]. by apply insert_desc_sorted.
Qed.

Lemma Sorted_adjacent {A} (R : A -> A -> Prop) (l : list A) (i : nat) (a b : A) :
  Sorted R l -> l !! i = Some a -> l !! S i = Some b -> R a b.
Proof.
  intros Hs. revert i. induction Hs as [|x l Hs IH Hhd]; intros i; [done|].
  destruct i as [|i]; simpl.
  - intros [= ->] Hb. destruct l as [|y l]; [done|].
    simpl in Hb. injection Hb as ->. by inversion Hhd.
  - apply IH.
Qed.

(** X3. Both listings of requests come newest first: in the pending list
    and in the list of all requests, a request is never followed by one
    with a later creation time. *)
Theorem requests_listed_newest_first (limit : Z) (db : FirebaseDatabase)
    (i : nat) (a b : HelpRequest) (ta tb : Z) :
  hr_created_at a = PyDatetime ta ->
  hr_created_at b = PyDatetime tb ->
  (get_pending_requests db !! i = Some a ->
   get_pending_requests db !! S i = Some b -> (tb <= ta)%Z)
  /\ (get_all_requests limit db !! i = Some a ->
      get_all_requests limit db !! S i = Some b -> (tb <= ta)%Z).
Proof.
  intros Ha Hb.
  assert (Firestore.created_desc a b = true -> (tb <= ta)%Z) as Hle.
  { unfold Firestore.created_desc. rewrite Ha, Hb. simpl.
    destruct (ta ?= tb)%Z eqn:Hc; [|done|].
    - apply Z.compare_eq in Hc. lia.
    - apply Z.compare_gt_iff in Hc. lia. }
  split; intros Hi Hsi; apply Hle.
  - unfold get_pending_requests in *.
    exact (Sorted_adjacent _ _ i a b (order_by_created_at_desc_sorted _) Hi Hsi).
  - unfold get_all_requests, FirestoreQuery.limit in *.
    apply lookup_take_Some in Hi as [Hi _]. apply lookup_take_Some in Hsi as [Hsi _].
    exact (Sorted_adjacent _ _ i a b (order_by_created_at_desc_sorted _) Hi Hsi).
Qed.

Lemma requests_listed_newest_first_witness :
  (get_pending_requests SweepSamples.db !! 0%nat
     = Some (request_data "req-new" (SweepSamples.now - timedelta_days 1)
               "Is parking free?" "bob" None None) ->
   get_pending_requests SweepSamples.db !! 1%nat
     = Some (request_data "req-old" (SweepSamples.now - timedelta_days 3)
               "Do you do balayage?" "alice" None None) ->
   (SweepSamples.now - timedelta_days 3 <= SweepSamples.now - timedelta_days 1)%Z)
  /\ (get_all_requests 10 SweepSamples.db !! 0%nat
        = Some (request_data "req-new" (SweepSamples.now - timedelta_days 1)
                  "Is parking free?" "bob" None None) ->
      get_all_requests 10 SweepSamples.db !! 1%nat
        = Some (request_data "req-old" (SweepSamples.now - timedelta_days 3)
                  "Do you do balayage?" "alice" None None) ->
      (SweepSamples.now - timedelta_days 3 <= SweepSamples.now - timedelta_days 1)%Z).
Proof.
  apply (requests_listed_newest_first 10 SweepSamples.db 0
           (request_data "req-new" (SweepSamples.now - timedelta_days 1)
              "Is parking free?" "bob" None None)
           (request_data "req-old" (SweepSamples.now - timedelta_days 3)
              "Do you do balayage?" "alice" None None)).
  - reflexivity.
  - reflexivity.
Defined.

Lemma insert_knowledge_desc_perm (k : KnowledgeBase) (l : list KnowledgeBase) :
  FirestoreQuery.insert_knowledge_desc k l ≡ₚ k :: l.
Proof.
  induction l as [|x l IH]; simpl; [done|].
  destruct (FirestoreQuery.knowledge_created_desc k x); [done|].
  rewrite IH. apply Permutation_swap.
Qed.

Lemma order_knowledge_perm (l : list KnowledgeBase) :
  FirestoreQuery.order_knowledge_by_created_at_desc l ≡ₚ l.
Proof.
  unfold FirestoreQuery.order_knowledge_by_created_at_desc.
  induction l as [|x l IH]; simpl; [done|].
  by rewrite insert_knowledge_desc_perm, IH.
Qed.

(** X4. The two limited listings return at most [limit] documents, all of
    them documents of the collection, every document when the collection
    has no more than [limit], and nothing for a limit of zero or below. *)
Theorem limited_listings (limit : Z) (db : FirebaseDatabase) :
  length (get_all_requests limit db)
  = Nat.min (Z.to_nat limit) (length (requests_collection db))
  /\ length (get_all_knowledge limit db)
     = Nat.min (Z.to_nat limit) (length (knowledge_collection db))
  /\ (forall r, r ∈ get_all_requests limit db -> r ∈ requests_collection db)
  /\ (forall k, k ∈ get_all_knowledge limit db -> k ∈ knowledge_collection db)
  /\ ((Z.of_nat (length (requests_collection db)) <= limit)%Z ->
      get_all_requests limit db ≡ₚ requests_collection db)
  /\ ((Z.of_nat (length (knowledge_collection db)) <= limit)%Z ->
      get_all_knowledge limit db ≡ₚ knowledge_collection db)
  /\ ((limit <= 0)%Z ->
      get_all_requests limit db = [] /\ get_all_knowledge limit db = []).
Proof.
  unfold get_all_requests, get_all_knowledge, FirestoreQuery.limit.
  pose proof (order_by_created_at_desc_perm (requests_collection db)) as Hr.
  pose proof (order_knowledge_perm (knowledge_collection db)) as Hk.
  split_and!.
  - rewrite length_take, Hr. done.
  - rewrite length_take, Hk. done.
  - intros r Hin%elem_of_take. destruct Hin as (i & Hi & _).
    rewrite <- Hr. by apply list_elem_of_lookup_2 in Hi.
  - intros k Hin%elem_of_take. destruct Hin as (i & Hi & _).
    rewrite <- Hk. by apply list_elem_of_lookup_2 in Hi.
  - intros Hle. rewrite take_ge; [done|]. rewrite Hr. lia.
  - intros Hle. rewrite take_ge; [done|]. rewrite Hk. lia.
  - intros Hle. replace (Z.to_nat limit) with 0%nat by lia. done.
Qed.

(** X5. [update_knowledge] on an entry that exists reports success and
    replaces its answer and its update time only: id, question, source,
    tags, creation time and usage count stay, every other entry reads as
    before and the requests are untouched. *)
Theorem update_knowledge_replaces_answer (knowledge_id answer : string) (ts : Z)
    (db : FirebaseDatabase) (k : KnowledgeBase) :
  doc_get kb_id knowledge_id (knowledge_collection db) = Some k ->
  exists db' k',
    update_knowledge knowledge_id answer ts db = (true, db')
    /\ doc_get kb_id knowledge_id (knowledge_collection db') = Some k'
    /\ kb_answer k' = answer
    /\ kb_updated_at k' = ts
    /\ kb_id k' = kb_id k
    /\ kb_question k' = kb_question k
    /\ kb_source k' = kb_source k
    /\ kb_tags k' = kb_tags k
    /\ kb_created_at k' = kb_created_at k
    /\ kb_usage_count k' = kb_usage_count k
    /\ (forall other, other <> knowledge_id ->
          doc_get kb_id other (knowledge_collection db')
          = doc_get kb_id other (knowledge_collection db))
    /\ length (knowledge_collection db') = length (knowledge_collection db)
    /\ requests_collection db' = requests_collection db.
Proof.
  intros Hget.
  pose proof Hget as (before & after & Hsplit & Hid & Hfresh)%doc_get_split.
  unfold update_knowledge. rewrite Hsplit.
  rewrite (doc_update_first kb_id knowledge_id) by done.
  exists {| requests_collection := requests_collection db;
            knowledge_collection := before ++ set_answer answer ts k :: after |},
         (set_answer answer ts k).
  simpl. split; [done|]. split; [by apply (doc_get_first kb_id)|].
  do 8 (split; [done|]). split_and!; [|by rewrite !length_app|done].
  intros other Hne.
  assert (doc_update kb_id knowledge_id (set_answer answer ts) (before ++ k :: after)
          = Some (before ++ set_answer answer ts k :: after)) as Hu
    by (by apply doc_update_first).
  by apply (doc_get_update_ne kb_id other knowledge_id (set_answer answer ts) _ _
              (fun _ => eq_refl)).
Qed.

Lemma update_knowledge_replaces_answer_witness :
  exists db' k',
    update_knowledge "kb-hours" "10-6 daily" 9000 Samples.db0 = (true, db')
    /\ doc_get kb_id "kb-hours" (knowledge_collection db') = Some k'
    /\ kb_answer k' = "10-6 daily"
    /\ kb_updated_at k' = 9000%Z
    /\ kb_id k' = kb_id Samples.hours_entry
    /\ kb_question k' = kb_question Samples.hours_entry
    /\ kb_source k' = kb_source Samples.hours_entry
    /\ kb_tags k' = kb_tags Samples.hours_entry
    /\ kb_created_at k' = kb_created_at Samples.hours_entry
    /\ kb_usage_count k' = kb_usage_count Samples.hours_entry
    /\ (forall other, other <> "kb-hours" ->
          doc_get kb_id other (knowledge_collection db')
          = doc_get kb_id other (knowledge_collection Samples.db0))
    /\ length (knowledge_collection db') = length (knowledge_collection Samples.db0)
    /\ requests_collection db' = requests_collection Samples.db0.
Proof.
  apply (update_knowledge_replaces_answer "kb-hours" "10-6 daily" 9000 Samples.db0
           Samples.hours_entry).
  reflexivity.
Defined.

Lemma contains_empty (hay : string) : PyStr.contains "" hay = true.
Proof. by destruct hay. Qed.

(** X7. An empty question matches every entry: when the knowledge base is
    not empty, [process_question] with the empty text returns the answer of
    the first stored entry with [needs_help = false], whatever the model
    would have said; no request is created and the usage count of that
    first entry goes up. *)
Theorem empty_question_hits_first_entry (llm : list Message -> Completion)
    (auto_id : string) (ts : Z) (customer_id : string)
    (customer_phone : option string) (context : option CallerContext)
    (self : AIAgent) (db : FirebaseDatabase)
    (k : KnowledgeBase) (rest : list KnowledgeBase) :
  knowledge_collection db = k :: rest ->
  exists self' db',
    process_question llm auto_id ts "" customer_id customer_phone context self db
    = ({| response := kb_answer k; needs_help := false;
          help_request_id := None; knowledge_used := Some (kb_id k) |},
       self', db')
    /\ knowledge_collection db' = incr_usage k :: rest
    /\ requests_collection db' = requests_collection db.
Proof.
  intros Hkb.
  assert (search_knowledge "" db
          = k :: filter (fun data => matches "" data = true) rest) as Hs.
  { unfold search_knowledge. rewrite Hkb. rewrite filter_cons_True; [done|].
    unfold matches. simpl. by rewrite contains_empty. }
  rewrite (run_hit _ _ _ _ _ _ _ _ _ _ _ Hs).
  do 2 eexists. split; [done|].
  unfold increment_knowledge_usage. rewrite Hkb. simpl.
  rewrite decide_True by done. done.
Qed.

Lemma empty_question_hits_first_entry_witness :
  exists self' db',
    process_question Samples.llm_escalates "req-1" 5000 "" "bob" None None
      Samples.agent0 Samples.db0
    = ({| response := kb_answer Samples.location_entry; needs_help := false;
          help_request_id := None;
          knowledge_used := Some (kb_id Samples.location_entry) |},
       self', db')
    /\ knowledge_collection db'
       = incr_usage Samples.location_entry
         :: [Samples.hours_entry; Samples.walkin_entry]
    /\ requests_collection db' = requests_collection Samples.db0.
Proof.
  apply (empty_question_hits_first_entry Samples.llm_escalates "req-1" 5000 "bob"
           None None Samples.agent0 Samples.db0 Samples.location_entry
           [Samples.hours_entry; Samples.walkin_entry]).
  reflexivity.
Defined.

(** X8. [search_knowledge] returns, in store order, exactly the entries in
    which the lower-cased query occurs inside the lower-cased question or
    inside the lower-cased answer: some text, the query, some text. *)
Theorem search_knowledge_occurrences (query : string) (db : FirebaseDatabase) :
  search_knowledge query db `sublist_of` knowledge_collection db
  /\ forall e,
       e ∈ search_knowledge query db
       <-> e ∈ knowledge_collection db
           /\ exists before after,
                PyStr.lower (kb_question e) = before +:+ PyStr.lower query +:+ after
                \/ PyStr.lower (kb_answer e) = before +:+ PyStr.lower query +:+ after.
Proof.
  unfold search_knowledge. split; [apply sublist_filter|].
  intros e. rewrite list_elem_of_filter. unfold matches.
  rewrite orb_true_iff, !PyStrFacts.contains_app. split.
  - intros [[(b & a & H)|(b & a & H)] Hin]; (split; [done|]); exists b, a; auto.
  - intros [Hin (b & a & [H|H])]; (split; [|done]); [left|right]; eauto.
Qed.


Lemma initialize_sample_data_cases auto_id ts db :
  initialize_sample_data auto_id ts db
  = match knowledge_collection db with
    | [] => add_sample_knowledge auto_id ts db
    | _ :: _ => db
    end.
Proof.
  unfold initialize_sample_data, FirestoreQuery.limit.
  by destruct (knowledge_collection db).
Qed.



(* ===================================================================== *)
(** ** Further properties of the agent *)
(* ===================================================================== *)

(** X10. A plain model answer: with no knowledge match and a reply that,
    once trimmed, does not start with the marker, [process_question]
    returns the trimmed reply with [needs_help = false] and no ids, leaves
    the store as it is and appends the question and the trimmed reply to
    the customer's history. *)
Theorem process_question_plain_answer (llm : list Message -> Completion)
    (auto_id : string) (ts : Z) (question customer_id : string)
    (customer_phone : option string) (context : option CallerContext)
    (self : AIAgent) (db : FirebaseDatabase) (text : string) :
  (forall e, e ∈ knowledge_collection db -> matches question e = false) ->
  llm (build_messages self customer_id question) = Reply text ->
  PyStr.startswith (PyStr.strip text) ESCALATE = false ->
  exists self',
    process_question llm auto_id ts question customer_id customer_phone context self db
    = ({| response := PyStr.strip text; needs_help := false;
          help_request_id := None; knowledge_used := None |}, self', db)
    /\ turns_of (conversation_history self') customer_id
       = turns_of (conversation_history self) customer_id
         ++ [ mkMessage user question; mkMessage assistant (PyStr.strip text) ]
    /\ system_prompt self' = system_prompt self.
Proof.
  intros Hmiss%search_knowledge_nil Hl He.
  eexists. split; [by apply run_answer|]. simpl. split; [|done].
  unfold append_turns, turns_of at 1.
  by rewrite lookup_insert_eq, turns_of_init_history.
Qed.

Lemma process_question_plain_answer_witness :
  exists self',
    process_question Samples.llm_answers "req-1" 5000 "How much is a women's cut?"
      "alice" None None Samples.agent0 Samples.db0
    = ({| response := PyStr.strip "  A women's cut is $65.  "; needs_help := false;
          help_request_id := None; knowledge_used := None |}, self', Samples.db0)
    /\ turns_of (conversation_history self') "alice"
       = turns_of (conversation_history Samples.agent0) "alice"
         ++ [ mkMessage user "How much is a women's cut?";
              mkMessage assistant (PyStr.strip "  A women's cut is $65.  ") ]
    /\ system_prompt self' = system_prompt Samples.agent0.
Proof.
  apply (process_question_plain_answer Samples.llm_answers "req-1" 5000
           "How much is a women's cut?" "alice" None None Samples.agent0 Samples.db0
           "  A women's cut is $65.  ").
  - apply search_knowledge_nil. reflexivity.
  - reflexivity.
  - reflexivity.
Defined.

(** X15. [process_question] asks for help exactly when nothing in the
    knowledge base matches and the model call either fails or gives a reply
    that starts with the marker once trimmed; the marker anywhere else in
    the reply does not escalate. *)
Theorem needs_help_exactly_on_marker_or_failure (llm : list Message -> Completion)
    (auto_id : string) (ts : Z) (question customer_id : string)
    (customer_phone : option string) (context : option CallerContext)
    (self : AIAgent) (db : FirebaseDatabase) :
  needs_help
    (process_question llm auto_id ts question customer_id customer_phone context
       self db).1.1 = true
  <-> search_knowledge question db = []
      /\ match llm (build_messages self customer_id question) with
         | Failure _ => True
         | Reply text => PyStr.startswith (PyStr.strip text) ESCALATE = true
         end.
Proof.
  destruct (run_cases llm question customer_id self db)
    as [(k & rest & Hs) | [(text & Hs & Hl & He)
      | [(text & Hs & Hl & He) | (e & Hs & Hl)]]].
  - rewrite (run_hit _ _ _ _ _ _ _ _ _ _ _ Hs), Hs. simpl.
    split; [done|]. by intros [? _].
  - rewrite (run_escalate _ _ _ _ _ _ _ _ _ _ Hs Hl He), Hl, He. done.
  - rewrite (run_answer _ _ _ _ _ _ _ _ _ _ Hs Hl He), Hl, He.
    split; [done|]. by intros [_ ?].
  - rewrite (run_failure _ _ _ _ _ _ _ _ _ _ Hs Hl), Hl. simpl. done.
Qed.

(** X12. [process_question] only ever appends to the customer's history:
    the turns it had stay, in order, and what is added is nothing (knowledge
    hit, failed model call) or the question followed by one agent turn. *)
Theorem process_question_history_grows (llm : list Message -> Completion)
    (auto_id : string) (ts : Z) (question customer_id : string)
    (customer_phone : option string) (context : option CallerContext)
    (self : AIAgent) (db : FirebaseDatabase) :
  exists added,
    turns_of
      (conversation_history
         (process_question llm auto_id ts question customer_id customer_phone context
            self db).1.2) customer_id
    = turns_of (conversation_history self) customer_id ++ added
    /\ (added = []
        \/ exists reply, added = [ mkMessage user question; mkMessage assistant reply ]).
Proof.
  destruct (run_cases llm question customer_id self db)
    as [(k & rest & Hs) | [(text & Hs & Hl & He)
      | [(text & Hs & Hl & He) | (e & Hs & Hl)]]].
  - rewrite (run_hit _ _ _ _ _ _ _ _ _ _ _ Hs). simpl. exists [].
    rewrite app_nil_r, turns_of_init_history. auto.
  - rewrite (run_escalate _ _ _ _ _ _ _ _ _ _ Hs Hl He). simpl.
    eexists. split; [|right; eauto].
    unfold append_turns, turns_of at 1.
    by rewrite lookup_insert_eq, turns_of_init_history.
  - rewrite (run_answer _ _ _ _ _ _ _ _ _ _ Hs Hl He). simpl.
    eexists. split; [|right; eauto].
    unfold append_turns, turns_of at 1.
    by rewrite lookup_insert_eq, turns_of_init_history.
  - rewrite (run_failure _ _ _ _ _ _ _ _ _ _ Hs Hl). simpl. exists [].
    rewrite app_nil_r, turns_of_init_history. auto.
Qed.

Lemma startswith_refl (s : string) : PyStr.startswith s s = true.
Proof. induction s as [|c s IH]; simpl; [done|]. by rewrite Ascii.eqb_refl. Qed.

Lemma contains_refl (s : string) : PyStr.contains s s = true.
Proof. destruct s; simpl; [done|]. by rewrite Ascii.eqb_refl, startswith_refl. Qed.

(** X11. The learning loop closes: after a supervisor has answered a
    request, the same question, in any letter case, asked again is answered
    from the knowledge base with the supervisor's answer and without help,
    provided no other stored entry matches it. *)
Theorem resolved_question_is_answered_next_time (llm : list Message -> Completion)
    (kb_auto_id req_auto_id : string) (ts ts' : Z)
    (request_id supervisor_answer supervisor_id : string)
    (question customer_id : string) (customer_phone : option string)
    (context : option CallerContext)
    (self : AIAgent) (db : FirebaseDatabase) (request : HelpRequest) :
  get_help_request request_id db = Some request ->
  PyStr.lower question = PyStr.lower (hr_question request) ->
  (forall e, e ∈ knowledge_collection db -> matches question e = false) ->
  let resolved :=
    handle_supervisor_response kb_auto_id ts request_id supervisor_answer supervisor_id
      self db in
  (process_question llm req_auto_id ts' question customer_id customer_phone context
     resolved.1.2 resolved.2).1.1
  = {| response := supervisor_answer; needs_help := false;
       help_request_id := None; knowledge_used := Some kb_auto_id |}.
Proof.
  intros Hget Hlow Hmiss. cbv zeta.
  destruct (resolve_found kb_auto_id ts request_id supervisor_answer supervisor_id
              self db request Hget) as (before & after & Hsplit & Hid & ->).
  cbn [fst snd].
  set (entry := knowledge_data kb_auto_id ts (hr_question request) supervisor_answer
                  "supervisor" (Some ["learned"; "supervisor_response"])).
  set (db1 := {| requests_collection := _; knowledge_collection := _ |}).
  assert (matches question entry = true) as Hm.
  { unfold matches. simpl. by rewrite Hlow, contains_refl. }
  assert (entry ∈ knowledge_collection db1) as Hin by apply elem_of_doc_set_self.
  destruct (search_knowledge_first question db1 entry Hin Hm)
    as (pre & k & post & Hk & Hpre & Hmk & Hs).
  assert (k = entry) as ->.
  { assert (k ∈ knowledge_collection db1) as Hkin.
    { rewrite Hk. apply elem_of_app. right. left. }
    apply elem_of_doc_set in Hkin as [->|Hold]; [done|].
    rewrite (Hmiss k Hold) in Hmk. done. }
  by rewrite (run_hit _ _ _ _ _ _ _ _ _ _ _ Hs).
Qed.

Lemma resolved_question_is_answered_next_time_witness :
  (process_question Samples.llm_escalates "req-2" 9000 "DO YOU DO BALAYAGE?" "bob"
     None None
     (handle_supervisor_response "kb-learned-1" 7000 "req-1" "X" "supervisor_1"
        Samples.agent0 ResolutionSamples.db_pending).1.2
     (handle_supervisor_response "kb-learned-1" 7000 "req-1" "X" "supervisor_1"
        Samples.agent0 ResolutionSamples.db_pending).2).1.1
  = {| response := "X"; needs_help := false;
       help_request_id := None; knowledge_used := Some "kb-learned-1" |}.
Proof.
  apply (resolved_question_is_answered_next_time Samples.llm_escalates
           "kb-learned-1" "req-2" 7000 9000 "req-1" "X" "supervisor_1"
           "DO YOU DO BALAYAGE?" "bob" None None
           Samples.agent0 ResolutionSamples.db_pending
           ResolutionSamples.pending_request).
  - reflexivity.
  - reflexivity.
  - apply search_knowledge_nil. reflexivity.
Defined.

(** X13. What a resolution does to the histories: when the customer of the
    request has a history, exactly one agent turn with the follow-up text
    is appended to it; when the customer has none, none is created; the
    histories of all other customers stay as they are. *)
Theorem handle_supervisor_response_follow_up (auto_id : string) (ts : Z)
    (request_id supervisor_answer supervisor_id : string)
    (self : AIAgent) (db : FirebaseDatabase) (request : HelpRequest) :
  get_help_request request_id db = Some request ->
  let after :=
    conversation_history
      (handle_supervisor_response auto_id ts request_id supervisor_answer
         supervisor_id self db).1.2 in
  after !! hr_customer_id request
  = (fun turns =>
       turns ++ [ mkMessage assistant
                    ("Following up on your question: " +:+ hr_question request
                     +:+ ". Here's the answer: " +:+ supervisor_answer) ])
    <$> conversation_history self !! hr_customer_id request
  /\ forall other, other <> hr_customer_id request ->
       after !! other = conversation_history self !! other.
Proof.
  intros Hget. cbv zeta.
  destruct (resolve_found auto_id ts request_id supervisor_answer supervisor_id
              self db request Hget) as (before & after & Hsplit & Hid & ->).
  cbn [fst snd]. unfold follow_up_with_customer.
  destruct (conversation_history self !! hr_customer_id request) as [turns|] eqn:Hc.
  - simpl. unfold append_turns, turns_of. rewrite Hc. simpl. split.
    + by rewrite lookup_insert_eq.
    + intros other Hne. by rewrite lookup_insert_ne.
  - by rewrite Hc.
Qed.

Lemma handle_supervisor_response_follow_up_witness :
  conversation_history
    (handle_supervisor_response "kb-learned-1" 7000 "req-1" "X" "supervisor_1"
       Samples.agent0 ResolutionSamples.db_pending).1.2
    !! hr_customer_id ResolutionSamples.pending_request
  = (fun turns =>
       turns ++ [ mkMessage assistant
                    ("Following up on your question: "
                     +:+ hr_question ResolutionSamples.pending_request
                     +:+ ". Here's the answer: " +:+ "X") ])
    <$> conversation_history Samples.agent0
        !! hr_customer_id ResolutionSamples.pending_request
  /\ forall other, other <> hr_customer_id ResolutionSamples.pending_request ->
       conversation_history
         (handle_supervisor_response "kb-learned-1" 7000 "req-1" "X" "supervisor_1"
            Samples.agent0 ResolutionSamples.db_pending).1.2 !! other
       = conversation_history Samples.agent0 !! other.
Proof.
  apply (handle_supervisor_response_follow_up "kb-learned-1" 7000 "req-1" "X"
           "supervisor_1" Samples.agent0 ResolutionSamples.db_pending
           ResolutionSamples.pending_request).
  reflexivity.
Defined.

(** X14. [clear_conversation_history] forgets one customer and nothing
    else: that customer has no entry afterwards, every other customer's
    history and the system prompt stay, clearing twice is clearing once,
    clearing a customer without history changes nothing, and the next
    model request for the cleared customer carries no earlier turns. *)
Theorem clear_conversation_history_forgets (customer_id question : string)
    (self : AIAgent) :
  conversation_history (clear_conversation_history customer_id self) !! customer_id
  = None
  /\ (forall other, other <> customer_id ->
        conversation_history (clear_conversation_history customer_id self) !! other
        = conversation_history self !! other)
  /\ system_prompt (clear_conversation_history customer_id self) = system_prompt self
  /\ clear_conversation_history customer_id
       (clear_conversation_history customer_id self)
     = clear_conversation_history customer_id self
  /\ (conversation_history self !! customer_id = None ->
      clear_conversation_history customer_id self = self)
  /\ build_messages (clear_conversation_history customer_id self) customer_id question
     = [ mkMessage system (system_prompt self);
         mkMessage system ESCALATION_RULES;
         mkMessage user question ].
Proof.
  unfold clear_conversation_history, with_history. simpl. split_and!.
  - apply lookup_delete_eq.
  - intros other Hne. by apply lookup_delete_ne.
  - done.
  - by rewrite delete_delete_eq.
  - intros Hnone. destruct self as [p h]. simpl in *. f_equal.
    by apply delete_id.
  - unfold build_messages, turns_of. simpl. by rewrite lookup_delete_eq.
Qed.

(** X16. The request sent to the model has a bounded shape: the system
    prompt, the escalation rules, at most five history messages that are
    the tail of the customer's history, and the question last; at most
    eight messages however long the history is. *)
Theorem build_messages_shape (self : AIAgent) (customer_id question : string) :
  exists older window,
    build_messages self customer_id question
    = mkMessage system (system_prompt self)
      :: mkMessage system ESCALATION_RULES
      :: window ++ [ mkMessage user question ]
    /\ turns_of (conversation_history self) customer_id = older ++ window
    /\ length window <= 5
    /\ (length (turns_of (conversation_history self) customer_id) <= 5 -> older = [])
    /\ 3 <= length (build_messages self customer_id question) <= 8.
Proof.
  set (turns := turns_of (conversation_history self) customer_id).
  exists (take (length turns - 5) turns), (PyStr.last_n 5 turns).
  assert (length (PyStr.last_n 5 turns) <= 5) as Hw.
  { rewrite PyStrFacts.last_n_length. lia. }
  split_and!.
  - done.
  - unfold PyStr.last_n. by rewrite take_drop.
  - done.
  - intros Hshort. replace (length turns - 5) with 0 by lia. done.
  - unfold build_messages. fold turns. simpl. rewrite length_app. simpl. lia.
  - unfold build_messages. fold turns. simpl. rewrite length_app. simpl. lia.
Qed.

Lemma lstrip_head (s : string) :
  PyStr.lstrip s = EmptyString
  \/ exists c r, PyStr.lstrip s = String c r /\ PyStr.is_space c = false.
Proof.
  induction s as [|c s IH]; simpl; [by left|].
  destruct (PyStr.is_space c) eqn:Hc; [done|]. right. eauto.
Qed.

Lemma rstrip_ends (s : string) :
  PyStr.rstrip s = EmptyString \/ PyStr.ends_visible (PyStr.rstrip s) = true.
Proof.
  induction s as [|c s IH]; simpl; [by left|].
  destruct (PyStr.rstrip s) as [|d r] eqn:Hr.
  - destruct (PyStr.is_space c) eqn:Hc; [by left|]. right. simpl. by rewrite Hc.
  - right. destruct IH as [|IH]; [done|]. done.
Qed.

Lemma rstrip_head (c : ascii) (s : string) :
  PyStr.is_space c = false -> exists r, PyStr.rstrip (String c s) = String c r.
Proof.
  intros Hc. simpl. destruct (PyStr.rstrip s); [rewrite Hc|]; eauto.
Qed.

Lemma rstrip_fixed (s : string) :
  PyStr.ends_visible s = true -> PyStr.rstrip s = s.
Proof.
  induction s as [|c s IH]; [done|]. intros He.
  destruct s as [|d s].
  - simpl in *. by destruct (PyStr.is_space c).
  - change (PyStr.ends_visible (String d s) = true) in He.
    specialize (IH He). change (PyStr.rstrip (String c (String d s)))
      with (match PyStr.rstrip (String d s) with
            | EmptyString =>
                if PyStr.is_space c then EmptyString else String c EmptyString
            | r => String c r
            end).
    by rewrite IH.
Qed.

(** X17. The reply of the model is used trimmed: [strip] gives a text that
    is empty or begins and ends with a character that is not white space,
    and trimming a second time changes nothing. *)
Theorem strip_trims (s : string) :
  PyStr.strip (PyStr.strip s) = PyStr.strip s
  /\ (PyStr.strip s = EmptyString
      \/ exists c r,
           PyStr.strip s = String c r
           /\ PyStr.is_space c = false
           /\ PyStr.ends_visible (PyStr.strip s) = true).
Proof.
  assert (PyStr.strip s = EmptyString
          \/ exists c r, PyStr.strip s = String c r
                         /\ PyStr.is_space c = false
                         /\ PyStr.ends_visible (PyStr.strip s) = true) as Hshape.
  { unfold PyStr.strip.
    destruct (lstrip_head s) as [->|(c & r & -> & Hc)]; [by left|].
    destruct (rstrip_head c r Hc) as [r' Hr]. right. exists c, r'.
    split_and!; [done..|].
    destruct (rstrip_ends (String c r)) as [He|He]; [congruence|done]. }
  split; [|done].
  destruct Hshape as [->|(c & r & Heq & Hc & He)]; [done|].
  unfold PyStr.strip at 1. rewrite Heq at 1. simpl. rewrite Hc.
  rewrite <- Heq. by apply rstrip_fixed.
Qed.

(* ===================================================================== *)
(** ** Further properties of the sweep and of the store invariants *)
(* ===================================================================== *)


Lemma add_samples_wf auto_id ts i samples (c : list KnowledgeBase) :
  wf_collection kb_id c -> wf_collection kb_id (add_samples auto_id ts i samples c).
Proof.
  revert i c. induction samples as [|s samples IH]; intros i c Hwf; simpl; [done|].
  by apply IH, doc_set_wf.
Qed.

(** X18. Unique document ids are an invariant of the store: every operation
    that writes, the agent's two entry points, a sweep tick and the sample
    initialisation take a store with unique ids in both collections to a
    store with unique ids, whatever ids are drawn. *)
Theorem unique_ids_are_kept (llm : list Message -> Completion)
    (parse_iso : string -> option Z) (sched : RequestScheduler)
    (auto_id : string) (auto_ids : nat -> string) (ts now : Z)
    (question customer_id request_id knowledge_id answer supervisor_id source : string)
    (customer_phone : option string) (context : option CallerContext)
    (request_context : option RequestContext) (tags : option (list string))
    (status : RequestStatus) (self : AIAgent) (db : FirebaseDatabase) :
  wf_db db ->
  wf_db (create_help_request auto_id ts question customer_id customer_phone
           request_context db).2
  /\ wf_db (update_help_request request_id answer supervisor_id status ts db).2
  /\ wf_db (mark_request_unresolved request_id ts db).2
  /\ wf_db (add_knowledge auto_id ts question answer source tags db).2
  /\ wf_db (update_knowledge knowledge_id answer ts db).2
  /\ wf_db (increment_knowledge_usage knowledge_id db).2
  /\ wf_db (initialize_sample_data auto_ids ts db)
  /\ wf_db (process_question llm auto_id ts question customer_id customer_phone
              context self db).2
  /\ wf_db (handle_supervisor_response auto_id ts request_id answer supervisor_id
              self db).2
  /\ wf_db (check_old_requests parse_iso sched now ts db).
Proof.
  intros Hwf. split_and!.
  - by apply wf_db_create.
  - by apply wf_db_update.
  - by apply wf_db_mark.
  - by apply wf_db_add_knowledge.
  - destruct Hwf as [Hr Hk]. unfold update_knowledge.
    destruct (doc_update _ _ _ _) as [c'|] eqn:Hu; [|done].
    split; [done|]. unfold wf_collection. simpl.
    erewrite (doc_update_ids kb_id); [done| |exact Hu]. done.
  - by apply wf_db_increment.
  - rewrite initialize_sample_data_cases.
    destruct (knowledge_collection db) eqn:Hkb; [|done].
    destruct Hwf as [Hr Hk]. split; [done|].
    unfold add_sample_knowledge. cbn [knowledge_collection]. rewrite Hkb.
    apply add_samples_wf. unfold wf_collection. simpl. constructor.
  - by apply wf_db_process_question.
  - by apply wf_db_handle_supervisor_response.
  - by apply wf_db_check_old_requests.
Qed.

Lemma unique_ids_are_kept_witness :
  wf_db (process_question Samples.llm_escalates "req-1" 5000 "Do you do balayage?"
           "alice" None None Samples.agent0 Samples.db0).2
  /\ wf_db (handle_supervisor_response "req-1" 5000 "req-1" "X" "supervisor_1"
              Samples.agent0 Samples.db0).2.
Proof.
  destruct (unique_ids_are_kept Samples.llm_escalates SweepSamples.parse_two scheduler
              "req-1" (fun _ => "kb-0") 5000 9000 "Do you do balayage?" "alice"
              "req-1" "kb-hours" "X" "supervisor_1" "supervisor" None None None None
              RESOLVED Samples.agent0 Samples.db0)
    as (_ & _ & _ & _ & _ & _ & _ & Hq & Hr & _).
  - split; unfold wf_collection; compute_done.
  - by split.
Defined.

Section SweepEffect.
Variable parse_iso : string -> option Z.
Variables (timeout_threshold ts : Z).

Lemma check_loop_keeps (l : list HelpRequest) (db : FirebaseDatabase) :
  knowledge_collection (check_loop parse_iso timeout_threshold ts l db)
  = knowledge_collection db
  /\ ids hr_id (requests_collection (check_loop parse_iso timeout_threshold ts l db))
     = ids hr_id (requests_collection db).
Proof.
  revert db. induction l as [|r l IH]; intros db; simpl; [done|].
  destruct (fromisoformat parse_iso (hr_created_at r)) as [created_at|]; [|done].
  destruct (created_at <? timeout_threshold)%Z; [|apply IH].
  destruct (IH (mark_request_unresolved (hr_id r) ts db).2) as [-> ->].
  unfold mark_request_unresolved.
  destruct (doc_update _ _ _ _) as [c'|] eqn:Hu; [|done]. simpl. split; [done|].
  by apply (doc_update_ids hr_id (hr_id r) (set_unresolved ts)).
Qed.

Lemma check_loop_touch (i : string) (l : list HelpRequest) (db : FirebaseDatabase) :
  get_help_request i (check_loop parse_iso timeout_threshold ts l db)
  = get_help_request i db
  \/ (i ∈ ids hr_id l
      /\ get_help_request i (check_loop parse_iso timeout_threshold ts l db)
         = set_unresolved ts <$> get_help_request i db).
Proof.
  unfold ids. revert db. induction l as [|r l IH]; intros db; simpl; [by left|].
  destruct (fromisoformat parse_iso (hr_created_at r)) as [created_at|]; [|by left].
  destruct (created_at <? timeout_threshold)%Z.
  - destruct (IH (mark_request_unresolved (hr_id r) ts db).2) as [->|[Hin ->]];
      rewrite get_after_mark; case_decide as Hi.
    + right. split; [subst; left|done].
    + by left.
    + right. split; [by right|]. by destruct (get_help_request i db).
    + right. split; [by right|done].
  - destruct (IH db) as [->|[Hin ->]]; [by left|]. right. split; [by right|done].
Qed.

End SweepEffect.

(** X19. A sweep tick only ever times requests out: it leaves the knowledge
    base and the set of request ids as they are, and each request either
    reads exactly as before or was Pending and now reads as the same
    request with status Unresolved and [resolved_at] set. *)
Theorem check_old_requests_only_times_out (parse_iso : string -> option Z)
    (self : RequestScheduler) (now ts : Z) (db : FirebaseDatabase) :
  wf_collection hr_id (requests_collection db) ->
  knowledge_collection (check_old_requests parse_iso self now ts db)
  = knowledge_collection db
  /\ ids hr_id (requests_collection (check_old_requests parse_iso self now ts db))
     = ids hr_id (requests_collection db)
  /\ forall request_id,
       get_help_request request_id (check_old_requests parse_iso self now ts db)
       = get_help_request request_id db
       \/ exists request,
            get_help_request request_id db = Some request
            /\ hr_status request = PENDING
            /\ get_help_request request_id (check_old_requests parse_iso self now ts db)
               = Some (set_unresolved ts request).
Proof.
  intros Hwf. unfold check_old_requests.
  split_and!; [apply check_loop_keeps..|].
  intros i.
  destruct (check_loop_touch parse_iso (now - timedelta_days (timeout_days self)) ts i
              (get_pending_requests db) db) as [H|[Hin H]]; [by left|].
  right. apply list_elem_of_fmap in Hin as (r & -> & [Hp Hr]%elem_of_get_pending_requests).
  exists r. unfold get_help_request in *.
  rewrite (doc_get_elem hr_id _ r Hwf Hr) in H |- *. done.
Qed.

Lemma check_old_requests_only_times_out_witness :
  knowledge_collection
    (check_old_requests SweepSamples.parse_two scheduler SweepSamples.now 9000
       SweepSamples.text_db)
  = knowledge_collection SweepSamples.text_db
  /\ ids hr_id
       (requests_collection
          (check_old_requests SweepSamples.parse_two scheduler SweepSamples.now 9000
             SweepSamples.text_db))
     = ids hr_id (requests_collection SweepSamples.text_db)
  /\ forall request_id,
       get_help_request request_id
         (check_old_requests SweepSamples.parse_two scheduler SweepSamples.now 9000
            SweepSamples.text_db)
       = get_help_request request_id SweepSamples.text_db
       \/ exists request,
            get_help_request request_id SweepSamples.text_db = Some request
            /\ hr_status request = PENDING
            /\ get_help_request request_id
                 (check_old_requests SweepSamples.parse_two scheduler SweepSamples.now
                    9000 SweepSamples.text_db)
               = Some (set_unresolved 9000 request).
Proof.
  apply (check_old_requests_only_times_out SweepSamples.parse_two scheduler
           SweepSamples.now 9000 SweepSamples.text_db).
  unfold wf_collection. compute_done.
Defined.



(* ===================================================================== *)
(** ** Properties of the call handler *)
(* ===================================================================== *)

Lemma with_call_raises (call_id : string) (f : CallData -> CallData)
    (self : LiveKitHandler) :
  (exists m, with_call call_id f self = ValueError m)
  <-> call_id ∉ ids cd_call_id (active_calls self).
Proof.
  unfold with_call. rewrite <- (doc_update_is_Some cd_call_id call_id f).
  destruct (doc_update _ _ _ _); split.
  - by intros [? ?].
  - intros []. eauto.
  - by intros _ [? ?].
  - eauto.
Qed.

(** X21. Every operation on a call fails with the ValueError of an unknown
    call exactly when the call id is not among the active calls: taking
    speech, sending a response, ending, putting on hold and resuming.  The
    status of the call is never consulted. *)
Theorem call_operations_need_an_active_call (now call_id text : string)
    (self : LiveKitHandler) :
  ((exists m, process_speech now call_id text self = ValueError m)
   <-> call_id ∉ ids cd_call_id (active_calls self))
  /\ ((exists m, send_speech_response now call_id text self = ValueError m)
      <-> call_id ∉ ids cd_call_id (active_calls self))
  /\ ((exists m, end_call now call_id self = ValueError m)
      <-> call_id ∉ ids cd_call_id (active_calls self))
  /\ ((exists m, put_on_hold call_id self = ValueError m)
      <-> call_id ∉ ids cd_call_id (active_calls self))
  /\ ((exists m, resume_call call_id self = ValueError m)
      <-> call_id ∉ ids cd_call_id (active_calls self)).
Proof.
  split_and!; try apply with_call_raises.
  - rewrite <- (with_call_raises call_id
                  (add_transcript (mkTranscriptEntry now speaker_customer text))).
    unfold process_speech. destruct (with_call _ _ _); split.
    + by intros [? ?].
    + by intros [? ?].
    + eauto.
    + eauto.
  - rewrite <- (doc_get_None cd_call_id). unfold end_call.
    destruct (doc_get _ _ _); split.
    + by intros [? ?].
    + done.
    + done.
    + eauto.
Qed.

(** X22. Ending a call moves it from the active calls to the log: the call
    is returned and logged last with status completed, its end time set
    and its transcript as it was; it is no longer active while every other
    active call stays; ending it a second time fails. *)
Theorem end_call_moves_call_to_log (now later call_id : string)
    (self : LiveKitHandler) (c : CallData) :
  doc_get cd_call_id call_id (active_calls self) = Some c ->
  exists ended self',
    end_call now call_id self = Returns (ended, self')
    /\ call_logs self' = call_logs self ++ [ended]
    /\ cd_status ended = call_completed
    /\ cd_end_time ended = Some now
    /\ cd_transcript ended = cd_transcript c
    /\ cd_call_id ended = call_id
    /\ doc_get cd_call_id call_id (active_calls self') = None
    /\ (forall other, other <> call_id ->
          doc_get cd_call_id other (active_calls self')
          = doc_get cd_call_id other (active_calls self))
    /\ end_call later call_id self' = ValueError (not_found call_id).
Proof.
  intros Hget. unfold end_call at 1. rewrite Hget.
  do 2 eexists. split; [done|]. simpl.
  assert (doc_get cd_call_id call_id
            (dict_del cd_call_id call_id (active_calls self)) = None) as Hgone.
  { rewrite doc_get_dict_del. by rewrite decide_True. }
  split_and!; [done..| |done| |].
  - by apply doc_get_split in Hget as (? & ? & _ & ? & _).
  - intros other Hne. rewrite doc_get_dict_del. by rewrite decide_False.
  - unfold end_call. simpl. by rewrite Hgone.
Qed.

Lemma set_call_status_round_trip (c : CallData) :
  cd_status c = call_active ->
  set_call_status call_active (set_call_status call_on_hold c) = c.
Proof. destruct c. simpl. by intros ->. Qed.

(** X23. Hold and resume are a round trip: putting an active call on hold
    and resuming it gives back the handler exactly as it was; while the
    call is on hold its status reads on hold and speech is still accepted
    into its transcript. *)
Theorem hold_then_resume (now call_id text : string)
    (self : LiveKitHandler) (c : CallData) :
  doc_get cd_call_id call_id (active_calls self) = Some c ->
  cd_status c = call_active ->
  exists held,
    put_on_hold call_id self = Returns held
    /\ doc_get cd_call_id call_id (active_calls held)
       = Some (set_call_status call_on_hold c)
    /\ resume_call call_id held = Returns self
    /\ exists heard,
         process_speech now call_id text held = Returns ((call_id, text, now), heard)
         /\ (cd_transcript <$> doc_get cd_call_id call_id (active_calls heard))
            = Some (cd_transcript c ++ [mkTranscriptEntry now speaker_customer text])
         /\ (cd_status <$> doc_get cd_call_id call_id (active_calls heard))
            = Some call_on_hold.
Proof.
  intros Hget Hactive.
  pose proof Hget as (before & after & Hsplit & Hid & Hfresh)%doc_get_split.
  exists {| active_calls := before ++ set_call_status call_on_hold c :: after;
            call_logs := call_logs self |}.
  split.
  { unfold put_on_hold, with_call. rewrite Hsplit.
    by rewrite (doc_update_first cd_call_id call_id). }
  simpl. split; [by apply (doc_get_first cd_call_id)|]. split.
  - unfold resume_call, with_call. simpl.
    rewrite (doc_update_first cd_call_id call_id) by done.
    rewrite set_call_status_round_trip by done. rewrite <- Hsplit. by destruct self.
  - unfold process_speech, with_call. simpl.
    rewrite (doc_update_first cd_call_id call_id) by done.
    eexists. split; [done|]. simpl.
    by rewrite (doc_get_first cd_call_id call_id).
Qed.

Lemma end_call_moves_call_to_log_witness :
  exists ended self',
    end_call "2025-11-03T10:00:02.700000" "call_alice_1762164000.5" CallSamples.ringing.2
    = Returns (ended, self')
    /\ call_logs self' = call_logs CallSamples.ringing.2 ++ [ended]
    /\ cd_status ended = call_completed
    /\ cd_end_time ended = Some "2025-11-03T10:00:02.700000"
    /\ cd_transcript ended = []
    /\ cd_call_id ended = "call_alice_1762164000.5"
    /\ doc_get cd_call_id "call_alice_1762164000.5" (active_calls self') = None
    /\ (forall other, other <> "call_alice_1762164000.5" ->
          doc_get cd_call_id other (active_calls self')
          = doc_get cd_call_id other (active_calls CallSamples.ringing.2))
    /\ end_call "2025-11-03T10:05:00" "call_alice_1762164000.5" self'
       = ValueError (not_found "call_alice_1762164000.5").
Proof.
  destruct (end_call_moves_call_to_log "2025-11-03T10:00:02.700000"
              "2025-11-03T10:05:00" "call_alice_1762164000.5" CallSamples.ringing.2
              {| cd_call_id := "call_alice_1762164000.5";
                 cd_customer_id := "alice";
                 cd_customer_phone := "+15551234567";
                 cd_customer_name := Some "Alice";
                 cd_start_time := "2025-11-03T10:00:00.500000";
                 cd_status := call_active;
                 cd_transcript := [];
                 cd_end_time := None |})
    as (ended & self' & H); [reflexivity|].
  exists ended, self'. exact H.
Defined.

Lemma hold_then_resume_witness :
  exists held,
    put_on_hold "call_alice_1762164000.5" CallSamples.ringing.2 = Returns held
    /\ resume_call "call_alice_1762164000.5" held = Returns CallSamples.ringing.2.
Proof.
  destruct (hold_then_resume "2025-11-03T10:00:01" "call_alice_1762164000.5" "hello"
              CallSamples.ringing.2
              {| cd_call_id := "call_alice_1762164000.5";
                 cd_customer_id := "alice";
                 cd_customer_phone := "+15551234567";
                 cd_customer_name := Some "Alice";
                 cd_start_time := "2025-11-03T10:00:00.500000";
                 cd_status := call_active;
                 cd_transcript := [];
                 cd_end_time := None |})
    as (held & Hhold & _ & Hresume & _); [reflexivity..|].
  exists held. by split.
Defined.

(** X24. [get_call_logs] returns the last [limit] logged calls for a
    positive limit, all of them when there are fewer.  A limit of zero
    returns every logged call, not none, and a negative limit drops the
    first [-limit] calls and returns the rest. *)
Theorem get_call_logs_limits (limit : Z) (self : LiveKitHandler) :
  ((0 < limit)%Z ->
   get_call_logs limit self = PyStr.last_n (Z.to_nat limit) (call_logs self)
   /\ length (get_call_logs limit self)
      = Nat.min (Z.to_nat limit) (length (call_logs self)))
  /\ get_call_logs 0 self = call_logs self
  /\ ((limit < 0)%Z ->
      get_call_logs limit self = drop (Z.to_nat (- limit)) (call_logs self)).
Proof.
  unfold get_call_logs, slice_from. split_and!.
  - intros Hpos. destruct (- limit <? 0)%Z eqn:Hneg; [|lia].
    assert (PyStr.last_n (Z.to_nat limit) (call_logs self)
            = drop (Z.to_nat (Z.max 0 (Z.of_nat (length (call_logs self)) + - limit)))
                (call_logs self)) as <-.
    { unfold PyStr.last_n. f_equal. lia. }
    split; [done|]. apply PyStrFacts.last_n_length.
  - done.
  - intros Hneg. destruct (- limit <? 0)%Z eqn:Hlt; [lia|done].
Qed.

(* ===================================================================== *)
(** ** Properties of the connection manager and of the endpoints *)
(* ===================================================================== *)




Lemma count_status_total (l : list HelpRequest) :
  length l
  = count_status PENDING l + count_status RESOLVED l + count_status UNRESOLVED l.
Proof.
  unfold count_status. induction l as [|r l IH]; [done|].
  rewrite !filter_cons. simpl.
  destruct (hr_status r); repeat case_decide; try done; simpl; lia.
Qed.

(** X27. The statistics add up: the total is the sum of the pending,
    resolved and unresolved counts; total and knowledge size are capped at
    1000; when the store holds at most 1000 requests the total is their
    number and the pending count is the length of the pending list. *)
Theorem statistics_add_up (app : App) :
  let stats := get_statistics app in
  total_requests stats
  = pending_requests stats + resolved_requests stats + unresolved_requests stats
  /\ total_requests stats = Nat.min 1000 (length (requests_collection (app_db app)))
  /\ knowledge_base_size stats
     = Nat.min 1000 (length (knowledge_collection (app_db app)))
  /\ stat_active_calls stats = length (active_calls (app_livekit app))
  /\ (length (requests_collection (app_db app)) <= 1000 ->
      pending_requests stats = length (get_pending_requests (app_db app))).
Proof.
  cbv zeta. unfold get_statistics. simpl. split_and!.
  - apply count_status_total.
  - unfold get_all_requests, FirestoreQuery.limit.
    rewrite length_take, order_by_created_at_desc_perm.
    by replace (Z.to_nat 1000) with 1000 by lia.
  - unfold get_all_knowledge, FirestoreQuery.limit.
    rewrite length_take, order_knowledge_perm.
    by replace (Z.to_nat 1000) with 1000 by lia.
  - done.
  - intros Hle. unfold count_status, get_all_requests, FirestoreQuery.limit,
      get_pending_requests.
    rewrite take_ge.
    + by rewrite !order_by_created_at_desc_perm.
    + rewrite order_by_created_at_desc_perm. lia.
Qed.

Lemma dict_del_fresh_tail {D} (key : D -> string) (c : list D) (d : D) :
  key d ∉ ids key c -> dict_del key (key d) (c ++ [d]) = c.
Proof.
  unfold dict_del, ids. intros Hfresh. rewrite filter_app.
  rewrite filter_cons_False by (intros ?; done). rewrite filter_nil, app_nil_r.
  induction c as [|x c IH]; [done|].
  rewrite filter_cons_True by set_solver. f_equal. apply IH. set_solver.
Qed.

(** X25. One simulated call, end to end.  When the call id is not already
    active, the endpoint never fails: it returns the result of
    [process_question] run with the call id as context, leaves agent and
    store as [process_question] left them, leaves the active calls as they
    were and logs exactly one completed call whose transcript is the
    question followed by the response; the supervisors are notified exactly
    when the result asks for help. *)
Theorem simulate_call_end_to_end (env : CallEnv) (call_data : CallSimulation)
    (app : App) :
  let call_id :=
    "call_" +:+ cs_customer_id call_data +:+ "_" +:+ env_stamp env in
  let answered :=
    process_question (env_llm env) (env_auto_id env) (env_ts env)
      (cs_question call_data) (cs_customer_id call_data)
      (Some (cs_customer_phone call_data)) (Some [("call_id", call_id)])
      (app_agent app) (app_db app) in
  call_id ∉ ids cd_call_id (active_calls (app_livekit app)) ->
  exists logged,
    simulate_call env call_data app
    = (Body answered.1.1,
       {| app_db := answered.2;
          app_agent := answered.1.2;
          app_livekit :=
            {| active_calls := active_calls (app_livekit app);
               call_logs := call_logs (app_livekit app) ++ [logged] |};
          app_manager := app_manager app |},
       if needs_help answered.1.1
       then broadcast (env_send_json env)
              (new_help_request (help_request_id answered.1.1)
                 (cs_question call_data) (cs_customer_id call_data))
              (app_manager app)
       else [])
    /\ cd_call_id logged = call_id
    /\ cd_status logged = call_completed
    /\ cd_start_time logged = env_start env
    /\ cd_end_time logged = Some (env_end env)
    /\ cd_transcript logged
       = [ mkTranscriptEntry (env_heard env) speaker_customer (cs_question call_data);
           mkTranscriptEntry (env_spoken env) speaker_ai_agent
             (response answered.1.1) ].
Proof.
  cbv zeta. intros Hfresh. unfold simulate_call, simulate_incoming_call.
  set (call_id := "call_" +:+ cs_customer_id call_data +:+ "_" +:+ env_stamp env) in *.
  rewrite (doc_set_fresh cd_call_id) by done.
  unfold process_speech, with_call. cbn [active_calls call_logs].
  rewrite (doc_update_first cd_call_id call_id _ _ []) by done.
  destruct (process_question _ _ _ _ _ _ _ _ _) as [[result agent'] db'].
  unfold send_speech_response, with_call. cbn [active_calls call_logs].
  rewrite (doc_update_first cd_call_id call_id _ _ []) by done.
  unfold end_call. cbn [active_calls call_logs].
  rewrite (doc_get_first cd_call_id call_id) by done.
  eexists. split.
  - cbn [fst snd]. repeat f_equal.
    apply (dict_del_fresh_tail cd_call_id (active_calls (app_livekit app))
             (add_transcript _ (add_transcript _ (mkCallData call_id _ _ _ _ _ _ _)))).
    done.
  - done.
Qed.

Lemma simulate_call_end_to_end_witness :
  exists logged,
    simulate_call CallSamples.env0 CallSamples.call0 CallSamples.app0
    = (Body
         {| response := escalation_message; needs_help := true;
            help_request_id := Some "req-1"; knowledge_used := None |},
       {| app_db :=
            (process_question Samples.llm_escalates "req-1" 5000 "Do you do balayage?"
               "alice" (Some "+15551234567")
               (Some [("call_id", "call_alice_1762164000.5")])
               Samples.agent0 Samples.db0).2;
          app_agent :=
            (process_question Samples.llm_escalates "req-1" 5000 "Do you do balayage?"
               "alice" (Some "+15551234567")
               (Some [("call_id", "call_alice_1762164000.5")])
               Samples.agent0 Samples.db0).1.2;
          app_livekit := {| active_calls := []; call_logs := [logged] |};
          app_manager := app_manager CallSamples.app0 |},
       [ (1%nat, new_help_request (Some "req-1") "Do you do balayage?" "alice");
         (3%nat, new_help_request (Some "req-1") "Do you do balayage?" "alice") ])
    /\ cd_status logged = call_completed
    /\ cd_transcript logged
       = [ mkTranscriptEntry "2025-11-03T10:00:00.600000" speaker_customer
             "Do you do balayage?";
           mkTranscriptEntry "2025-11-03T10:00:02.100000" speaker_ai_agent
             escalation_message ].
Proof.
  destruct (simulate_call_end_to_end CallSamples.env0 CallSamples.call0 CallSamples.app0)
    as (logged & Hrun & _ & Hstatus & _ & _ & Htranscript).
  - compute_done.
  - exists logged. split_and!; [exact Hrun|exact Hstatus|exact Htranscript].
Defined.

(** X26. The supervisor endpoint answers 404 exactly when the request id is
    unknown, and then changes nothing and notifies nobody.  For every
    request that exists, whatever its status, it answers success, stores
    the answer as [handle_supervisor_response] does and sends
    [request_resolved] to every connection whose send goes through. *)
Theorem respond_to_request_not_found_only (send_json : WebSocket -> Event -> bool)
    (auto_id : string) (ts : Z)
    (request_id supervisor_answer supervisor_id : string) (app : App) :
  match get_help_request request_id (app_db app) with
  | None =>
      respond_to_request send_json auto_id ts request_id supervisor_answer
        supervisor_id app
      = (HTTPException 404 "Request not found", app, [])
  | Some request =>
      exists app',
        respond_to_request send_json auto_id ts request_id supervisor_answer
          supervisor_id app
        = (Body "success", app',
           broadcast send_json (request_resolved request_id) (app_manager app))
        /\ get_help_request request_id (app_db app')
           = Some (set_supervisor_fields supervisor_answer supervisor_id RESOLVED ts
                     request)
        /\ app_livekit app' = app_livekit app
        /\ app_manager app' = app_manager app
  end.
Proof.
  unfold respond_to_request.
  destruct (get_help_request request_id (app_db app)) as [request|] eqn:Hget.
  - destruct (resolve_found auto_id ts request_id supervisor_answer supervisor_id
                (app_agent app) (app_db app) request Hget)
      as (before & after & Hsplit & Hfresh & ->).
    eexists. split; [done|]. simpl. split_and!; [|done..].
    unfold get_help_request. simpl.
    apply (doc_get_first hr_id request_id); [|done].
    simpl. by apply doc_get_split in Hget as (? & ? & _ & ? & _).
  - rewrite (resolve_missing _ _ _ _ _ _ _ Hget). by destruct app.
Qed.

(** X6. Creating a request through the API and reading it back: the
    create endpoint always succeeds, its returned id reads back through the
    get endpoint as a Pending request with the given question, and the
    creation is announced to every connection whose send goes through; the
    get endpoint answers 404 exactly for ids that are not in the store. *)
Theorem api_create_then_get (send_json : WebSocket -> Event -> bool)
    (auto_id : string) (ts : Z) (question customer_id : string)
    (customer_phone : option string) (context : option CallerContext)
    (request_id : string) (app : App) :
  (exists app' request,
      api_create_help_request send_json auto_id ts question customer_id
        customer_phone context app
      = (Body auto_id, app',
         broadcast send_json (new_help_request (Some auto_id) question customer_id)
           (app_manager app))
      /\ api_get_help_request auto_id app' = Body request
      /\ hr_status request = PENDING
      /\ hr_question request = question
      /\ hr_context request = CtxDict (default [] context)
      /\ app_agent app' = app_agent app
      /\ app_livekit app' = app_livekit app)
  /\ (api_get_help_request request_id app = HTTPException 404 "Request not found"
      <-> request_id ∉ ids hr_id (requests_collection (app_db app))).
Proof.
  split.
  - assert (doc_get hr_id auto_id
              (doc_set hr_id
                 (request_data auto_id ts question customer_id customer_phone
                    (CtxDict <$> context))
                 (requests_collection (app_db app)))
            = Some (request_data auto_id ts question customer_id customer_phone
                      (CtxDict <$> context))) as Hread
      by apply (doc_get_set hr_id (request_data _ _ _ _ _ _)).
    unfold api_create_help_request, create_help_request.
    do 2 eexists. split; [done|].
    unfold api_get_help_request, get_help_request. cbn [app_db requests_collection].
    rewrite Hread. split_and!; [done..| |done|done].
    simpl. by destruct context.
  - unfold api_get_help_request, get_help_request.
    rewrite <- (doc_get_None hr_id).
    destruct (doc_get _ _ _); split; done.
Qed.
